(** * Verification of the plugin-authoring utilities

    Two Python scripts are embedded here:
    - [csharp-plugin/hooks/csharpier-format.py], the format-on-save hook
      (module [Hook]);
    - [tools/create_plugin.py], the interactive plugin scaffolder
      (module [Scaffold]).

    Module [Py] holds the fragment of Python both scripts rely on: [str]
    methods, values produced by [json.load], dictionaries, exceptions and a
    state-and-exception monad in which [try]/[except] and [sys.exit] are
    written out. *)

From Stdlib Require Import ZArith Ascii String List Bool Lia.
From stdpp Require Import base option list strings gmap.

Local Open Scope Z_scope.
Set Warnings "-register-all".

(* ===================================================================== *)
(** * Python fragment                                                     *)
(* ===================================================================== *)

Module Py.

(** ** [str]

    A Python [str] is modelled as a Rocq [string] whose characters are the
    code points below 256.  [str.lower], [str.strip] and [str.isspace] are
    given for that range as Python defines them. *)

Definition code (c : ascii) : N := N_of_ascii c.

(** [str.isspace] on one character: TAB..CR, FS..US, SPACE, NEL, NBSP. *)
Definition is_space (c : ascii) : bool :=
  let n := code c in
  ((9 <=? n) && (n <=? 13) || (28 <=? n) && (n <=? 32)
   || (n =? 133) || (n =? 160))%N.

(** [str.lower] on one character: A..Z and the Latin-1 capitals
    U+00C0..U+00DE (U+00D7 excepted) move up by 32. *)
Definition lower_char (c : ascii) : ascii :=
  let n := code c in
  if ((65 <=? n) && (n <=? 90)
      || (192 <=? n) && (n <=? 222) && negb (n =? 215))%N
  then ascii_of_N (n + 32) else c.

Fixpoint lower (s : string) : string :=
  match s with
  | EmptyString => EmptyString
  | String c s' => String (lower_char c) (lower s')
  end.

Fixpoint lstrip (s : string) : string :=
  match s with
  | EmptyString => EmptyString
  | String c s' => if is_space c then lstrip s' else s
  end.

Fixpoint rstrip (s : string) : string :=
  match s with
  | EmptyString => EmptyString
  | String c s' =>
      match rstrip s' with
      | EmptyString => if is_space c then EmptyString else String c EmptyString
      | r => String c r
      end
  end.

(** [s.strip()] *)
Definition strip (s : string) : string := rstrip (lstrip s).

(** [s.startswith(p)] *)
Fixpoint startswith (s p : string) : bool :=
  match p, s with
  | EmptyString, _ => true
  | String a p', String c s' => Ascii.eqb a c && startswith s' p'
  | String _ _, EmptyString => false
  end.

(** [sub in s] for strings. *)
Fixpoint contains (sub s : string) : bool :=
  startswith s sub ||
  match s with
  | EmptyString => false
  | String _ s' => contains sub s'
  end.

(** [s.endswith(suffix)] *)
Definition endswith (s suffix : string) : bool :=
  let n := String.length s in
  let k := String.length suffix in
  (k <=? n)%nat && String.eqb (String.substring (n - k) k s) suffix.

(** Truth value of a [str]: non-empty. *)
Definition truthy (s : string) : bool :=
  match s with EmptyString => false | _ => true end.

(** [a or b] on strings. *)
Definition str_or (a b : string) : string := if truthy a then a else b.

(** [s * n] *)
Fixpoint repeat_str (s : string) (n : nat) : string :=
  match n with
  | O => EmptyString
  | S n' => s +:+ repeat_str s n'
  end.

(** The line feed character, as a one-character [str]. *)
Definition nl : string := String (ascii_of_nat 10) EmptyString.

Definition first_char (s : string) : option ascii :=
  match s with EmptyString => None | String c _ => Some c end.

Fixpoint last_char (s : string) : option ascii :=
  match s with
  | EmptyString => None
  | String c EmptyString => Some c
  | String _ s' => last_char s'
  end.

(** A word in the sense used below: non-empty, first and last character not
    white space (inner white space is allowed, as in ["not found"]). *)
Definition solid (p : string) : Prop :=
  (exists a, first_char p = Some a /\ is_space a = false) /\
  (exists z, last_char p = Some z /\ is_space z = false).

(** ** Values produced by [json.load]

    A JSON object becomes a [dict]: insertion ordered, looked up by key.  It
    is kept as an association list read with [dict_get] (first binding of the
    key) and updated with [dict_set] (in place when the key is bound, at the
    end otherwise), which is how [d[k] = v] behaves. *)

Inductive json : Type :=
| JNull
| JBool (b : bool)
| JInt (n : Z)
| JFloat (literal : string)
| JStr (s : string)
| JArr (items : list json)
| JObj (fields : list (string * json)).

Definition dict := list (string * json).

Fixpoint dict_get (k : string) (d : dict) : option json :=
  match d with
  | [] => None
  | (k', v) :: d' => if String.eqb k k' then Some v else dict_get k d'
  end.

Fixpoint dict_set (k : string) (v : json) (d : dict) : dict :=
  match d with
  | [] => [(k, v)]
  | (k', v') :: d' =>
      if String.eqb k k' then (k, v) :: d' else (k', v') :: dict_set k v d'
  end.

(** [k in d] *)
Definition dict_has (k : string) (d : dict) : bool :=
  match dict_get k d with Some _ => true | None => false end.

(** [type(v).__name__] *)
Definition type_name (v : json) : string :=
  match v with
  | JNull => "NoneType"
  | JBool _ => "bool"
  | JInt _ => "int"
  | JFloat _ => "float"
  | JStr _ => "str"
  | JArr _ => "list"
  | JObj _ => "dict"
  end.

(** Equality of a [str] with an arbitrary value, as [==] computes it. *)
Definition str_eq_value (s : string) (v : json) : bool :=
  match v with JStr s' => String.eqb s s' | _ => false end.

(** ** Exceptions

    [SystemExit] derives from [BaseException] only, so that no
    [except Exception] clause catches it; every other exception the two
    scripts can meet derives from [Exception]. *)

Inductive exc_class : Set :=
| JSONDecodeError
| AttributeError
| TypeError
| KeyError
| TimeoutExpired
| FileNotFoundError
| FileExistsError
| NotADirectoryError
| IsADirectoryError
| EOFError
| OtherError.

Definition exc_class_eqb (a b : exc_class) : bool :=
  match a, b with
  | JSONDecodeError, JSONDecodeError
  | AttributeError, AttributeError
  | TypeError, TypeError
  | KeyError, KeyError
  | TimeoutExpired, TimeoutExpired
  | FileNotFoundError, FileNotFoundError
  | FileExistsError, FileExistsError
  | NotADirectoryError, NotADirectoryError
  | IsADirectoryError, IsADirectoryError
  | EOFError, EOFError
  | OtherError, OtherError => true
  | _, _ => false
  end.

(** An instance of an [Exception] subclass, with the text of [str(e)]. *)
Record exception : Set := Exc { exc_type : exc_class; exc_str : string }.

Inductive raised : Set :=
| SystemExit (status : Z)
| Exception (e : exception).

Inductive outcome (A : Type) : Type :=
| Return (a : A)
| Raise (r : raised).
Arguments Return {A} a.
Arguments Raise {A} r.

(** The pattern of an [except] clause. *)
Inductive pattern : Set :=
| AnyException
| Only (c : exc_class).

Definition matches (p : pattern) (e : exception) : bool :=
  match p with
  | AnyException => true
  | Only c => exc_class_eqb c (exc_type e)
  end.

(** ** Computations

    A computation runs in a world [W] (console, file system, ...) and either
    returns or raises. *)

Section Monad.
Context {W : Type}.

Definition M (A : Type) : Type := W -> outcome A * W.

Definition ret {A} (a : A) : M A := fun w => (Return a, w).

Definition bind {A B} (m : M A) (k : A -> M B) : M B :=
  fun w =>
    match m w with
    | (Return a, w') => k a w'
    | (Raise r, w') => (Raise r, w')
    end.

Definition raise {A} (c : exc_class) (msg : string) : M A :=
  fun w => (Raise (Exception (Exc c msg)), w).

(** [sys.exit(status)] *)
Definition sys_exit {A} (status : Z) : M A :=
  fun w => (Raise (SystemExit status), w).

(** The first clause whose pattern matches handles the exception. *)
Fixpoint select {A} (clauses : list (pattern * (exception -> M A)))
         (e : exception) : option (M A) :=
  match clauses with
  | [] => None
  | (p, h) :: rest => if matches p e then Some (h e) else select rest e
  end.

(** [try: body except ...: ...] *)
Definition try_except {A} (body : M A)
           (clauses : list (pattern * (exception -> M A))) : M A :=
  fun w =>
    match body w with
    | (Raise (Exception e), w') =>
        match select clauses e with
        | Some h => h w'
        | None => (Raise (Exception e), w')
        end
    | other => other
    end.
End Monad.

Arguments M : clear implicits.

(** Exit status of the interpreter once the script's top level is done:
    0 on normal completion, the argument of [sys.exit], 1 after a traceback. *)
Definition exit_status {A} (o : outcome A) : Z :=
  match o with
  | Return _ => 0
  | Raise (SystemExit n) => n
  | Raise (Exception _) => 1
  end.

End Py.

Declare Scope py_scope.
Delimit Scope py_scope with py.
Notation "x <- m ;; k" := (Py.bind m (fun x => k))
  (at level 100, m at next level, right associativity) : py_scope.
Notation "m ;;; k" := (Py.bind m (fun _ => k))
  (at level 100, right associativity) : py_scope.

(* ===================================================================== *)
(** * The format-on-save hook: [csharpier-format.py]                      *)
(* ===================================================================== *)

Module Hook.
Import Py.
Local Open Scope py_scope.

(** What the process does that can be observed from outside. *)
Inductive event : Type :=
| Stdout (line : string)
| Stderr (line : string)
| Subprocess (argv : list string).

Definition trace := list event.

(** [json.load(sys.stdin)]: the decoded document, or the exception it raises
    ([JSONDecodeError] when the text is not JSON). *)
Inductive stdin_read : Type :=
| Parsed (data : json)
| Unreadable (e : exception).

(** [subprocess.run(..., capture_output=True, text=True, timeout=30)]:
    a completed process, or the exception raised instead. *)
Inductive run_result : Type :=
| Completed (returncode : Z) (stdout stderr : string)
| Failed (e : exception).

(** The surroundings of one run of the hook. *)
Record env : Type := Env {
  stdin : stdin_read;
  path_exists : string -> bool;            (* Path(p).exists() *)
  which : string -> option string;         (* shutil.which(name) *)
  subprocess_run : list string -> run_result
}.

Definition with_stdin (E : env) (r : stdin_read) : env :=
  {| stdin := r; path_exists := path_exists E; which := which E;
     subprocess_run := subprocess_run E |}.

Definition print (line : string) : M trace unit :=
  fun t => (Return tt, t ++ [Stdout line]).

(** [print(..., file=sys.stderr)] *)
Definition eprint (line : string) : M trace unit :=
  fun t => (Return tt, t ++ [Stderr line]).

Definition lift {A} (o : outcome A) : M trace A := fun t => (o, t).

Definition json_load_stdin (E : env) : M trace json :=
  lift match stdin E with
       | Parsed data => Return data
       | Unreadable e => Raise (Exception e)
       end.

Definition run_process (E : env) (argv : list string)
  : M trace (Z * string * string) :=
  fun t =>
    match subprocess_run E argv with
    | Completed rc out err => (Return (rc, out, err), t ++ [Subprocess argv])
    | Failed e => (Raise (Exception e), t ++ [Subprocess argv])
    end.

(** [v.get(key, default)]: only a [dict] has the method. *)
Definition get_method (v : json) (key : string) (default : json)
  : outcome json :=
  match v with
  | JObj d =>
      Return (match dict_get key d with Some x => x | None => default end)
  | _ =>
      Raise (Exception (Exc AttributeError
        ("'" +:+ type_name v +:+ "' object has no attribute 'get'")))
  end.

(** [data.get("tool_input", {}).get("file_path", "")] *)
Definition file_path_of (data : json) : outcome json :=
  match get_method data "tool_input" (JObj []) with
  | Return tool_input => get_method tool_input "file_path" (JStr "")
  | Raise r => Raise r
  end.

Definition check_csharpier_installed (E : env) : bool :=
  match which E "dotnet" with Some _ => true | None => false end.

Definition run_csharpier (E : env) (file_path : string)
  : M trace (bool * string) :=
  try_except
    (result <- run_process E ["dotnet"; "csharpier"; file_path] ;;
     let '(returncode, stdout, stderr_raw) := result in
     if returncode =? 0 then ret (true, "Formatted: " +:+ file_path)
     else
       let stderr := strip stderr_raw in
       if contains "csharpier" (lower stderr)
          && contains "not found" (lower stderr)
       then ret (false, "CSharpier not installed")
       else ret (false, "Format failed: " +:+ str_or stderr stdout))
    [ (Only TimeoutExpired,
         fun _ => ret (false, "Timeout formatting: " +:+ file_path));
      (Only FileNotFoundError,
         fun _ => ret (false, "dotnet CLI not found"));
      (AnyException,
         fun e => ret (false, "Error: " +:+ exc_str e)) ].

Definition main (E : env) : M trace unit :=
  try_except
    (data <- json_load_stdin E ;;
     file_path <- lift (file_path_of data) ;;
     match file_path with
     | JStr file_path =>
         if negb (endswith file_path ".cs") then sys_exit 0 else
         if negb (path_exists E file_path) then sys_exit 0 else
         if negb (check_csharpier_installed E) then
           eprint "[CSharpier] Warning: dotnet CLI not found. Skipping format."
           ;;; sys_exit 0
         else
           r <- run_csharpier E file_path ;;
           (let '(success, message) := r in
            if success then print ("[CSharpier] " +:+ message)
            else if contains "not installed" (lower message) then
              eprint "[CSharpier] Warning: CSharpier not installed. Install with: dotnet tool install -g csharpier"
            else eprint ("[CSharpier] Warning: " +:+ message)) ;;;
           sys_exit 0
     | other =>
         (* [file_path.endswith]: only a [str] has the method *)
         raise AttributeError
           ("'" +:+ type_name other +:+ "' object has no attribute 'endswith'")
     end)
    [ (Only JSONDecodeError,
         fun _ => eprint "[CSharpier] Warning: Invalid JSON input" ;;;
                  sys_exit 0);
      (AnyException,
         fun e => eprint ("[CSharpier] Warning: " +:+ exc_str e) ;;;
                  sys_exit 0) ].

(** One run of the script: the process exit status and what it did. *)
Definition exit_code (E : env) : Z := exit_status (fst (main E [])).
Definition events (E : env) : trace := snd (main E []).

Definition is_subprocess (ev : event) : bool :=
  match ev with Subprocess _ => true | _ => false end.

Definition subprocess_calls (t : trace) : trace := List.filter is_subprocess t.

(** The edit event has no [tool_input.file_path] to read: the document is a
    mapping and [tool_input] is missing from it, or is a mapping without
    [file_path]. *)
Definition path_missing (data : json) : bool :=
  match data with
  | JObj d =>
      match dict_get "tool_input" d with
      | None => true
      | Some (JObj t) => negb (dict_has "file_path" t)
      | Some _ => false
      end
  | _ => false
  end.

(** The document holds no mapping [tool_input] with a [file_path] key,
    whatever its shape. *)
Definition no_nested_path (data : json) : bool :=
  match data with
  | JObj d =>
      match dict_get "tool_input" d with
      | Some (JObj t) => negb (dict_has "file_path" t)
      | _ => true
      end
  | _ => true
  end.

(** The text of a [print] call starts with the hook's prefix. *)
Definition is_tagged (ev : event) : bool :=
  match ev with
  | Stdout line | Stderr line => startswith line "[CSharpier] "
  | Subprocess _ => true
  end.

Definition is_stdout (ev : event) : bool :=
  match ev with Stdout _ => true | _ => false end.

(** The hint printed when the formatter itself is missing. *)
Definition install_hint : string :=
  "[CSharpier] Warning: CSharpier not installed. Install with: dotnet tool install -g csharpier".

(** The command line of the formatter. *)
Definition formatter_argv (file_path : string) : list string :=
  ["dotnet"; "csharpier"; file_path].

(** Sample surroundings used in the examples. *)
Definition edit_event (p : string) : json :=
  JObj [("tool_name", JStr "Edit"); ("tool_input", JObj [("file_path", JStr p)])].

Definition quiet_env (input : stdin_read) : env :=
  {| stdin := input;
     path_exists := fun _ => true;
     which := fun _ => None;
     subprocess_run := fun _ => Completed 0 "" "" |}.

(** A toolchain that is present, with a given result of the launch. *)
Definition launching_env (input : stdin_read) (r : run_result) : env :=
  {| stdin := input;
     path_exists := fun _ => true;
     which := fun _ => Some "/usr/bin/dotnet";
     subprocess_run := fun _ => r |}.

(** A path that names no file. *)
Definition absent_env (input : stdin_read) : env :=
  {| stdin := input;
     path_exists := fun _ => false;
     which := fun _ => Some "/usr/bin/dotnet";
     subprocess_run := fun _ => Completed 0 "" "" |}.

Definition failing_env (rc : Z) (out err : string) : env :=
  {| stdin := Parsed (edit_event "Foo.cs");
     path_exists := fun _ => true;
     which := fun _ => Some "/usr/bin/dotnet";
     subprocess_run := fun _ => Completed rc out err |}.

End Hook.

(* ===================================================================== *)
(** * The plugin scaffolder: [create_plugin.py]                           *)
(* ===================================================================== *)

Module Scaffold.
Import Py.
Local Open Scope py_scope.

(** ** Files

    A file holds text; what matters here is whether [json.load] decodes it,
    and to which value.  [json.dump] followed by [json.load] gives the value
    back, so a written file is kept as the value written. *)
Inductive content : Type :=
| JsonText (value : json)
| OtherText (raw : string).

Inductive node : Type :=
| File (c : content)
| Dir (entries : list (string * node)).

Fixpoint entry_get (k : string) (es : list (string * node)) : option node :=
  match es with
  | [] => None
  | (k', n) :: es' => if String.eqb k k' then Some n else entry_get k es'
  end.

Fixpoint entry_set (k : string) (n : node) (es : list (string * node))
  : list (string * node) :=
  match es with
  | [] => [(k, n)]
  | (k', n') :: es' =>
      if String.eqb k k' then (k, n) :: es' else (k', n') :: entry_set k n es'
  end.

(** The three places [PluginCreator.__init__] and the methods name:
    [self.template_dir], [self.marketplace_file], and the entries
    [self.project_root / name] of the destination root, by [name].
    The three are kept apart and a name stands for one entry: a name that
    path separators resolve into the template, below the registry's
    directory or inside another entry is outside this model. *)
Record filesystem : Type := Fs {
  template_dir : option node;
  marketplace_file : option node;
  project_root : gmap string node
}.

(** [target_dir / ".claude-plugin" / "plugin.json"], below the target. *)
Definition manifest_path : list string := [".claude-plugin"; "plugin.json"].

Inductive location : Type :=
| Marketplace
| PluginJson (target_dir : string).

Inductive event : Type :=
| Print (line : string)
| Prompt (text : string)
| CopiedTree (target_dir : string)
| Wrote (file : location).

Record world : Type := World {
  fs : filesystem;
  keyboard : list string;     (* the lines still to come on standard input *)
  log : list event
}.

Definition error (c : exc_class) (msg : string) : raised :=
  Exception (Exc c msg).

Definition lift {A} (o : outcome A) : M world A := fun w => (o, w).

Definition emit (ev : event) : M world unit :=
  fun w => (Return tt,
            {| fs := fs w; keyboard := keyboard w; log := log w ++ [ev] |}).

Definition print (line : string) : M world unit := emit (Print line).

(** [input(prompt)]: shows the prompt and takes the next line, without its
    line end; [EOFError] when standard input is exhausted. *)
Definition input (prompt : string) : M world string :=
  fun w =>
    let log' := log w ++ [Prompt prompt] in
    match keyboard w with
    | [] => (Raise (error EOFError "EOF when reading a line"),
             {| fs := fs w; keyboard := []; log := log' |})
    | line :: rest =>
        (Return line, {| fs := fs w; keyboard := rest; log := log' |})
    end.

(** *** Reading and writing below a directory *)

Fixpoint node_at (path : list string) (n : node) : exc_class + node :=
  match path with
  | [] => inr n
  | p :: rest =>
      match n with
      | File _ => inl NotADirectoryError
      | Dir es =>
          match entry_get p es with
          | None => inl FileNotFoundError
          | Some child => node_at rest child
          end
      end
  end.

Fixpoint put_file (path : list string) (c : content) (n : node)
  : exc_class + node :=
  match path with
  | [] =>
      match n with
      | File _ => inr (File c)
      | Dir _ => inl IsADirectoryError
      end
  | p :: rest =>
      match n with
      | File _ => inl NotADirectoryError
      | Dir es =>
          match entry_get p es with
          | None => inl FileNotFoundError
          | Some child =>
              match put_file rest c child with
              | inr child' => inr (Dir (entry_set p child' es))
              | inl e => inl e
              end
          end
      end
  end.

Definition find (f : filesystem) (l : location) : exc_class + node :=
  match l with
  | Marketplace =>
      match marketplace_file f with
      | Some n => inr n
      | None => inl FileNotFoundError
      end
  | PluginJson target =>
      match project_root f !! target with
      | Some n => node_at manifest_path n
      | None => inl FileNotFoundError
      end
  end.

Definition location_name (l : location) : string :=
  match l with
  | Marketplace => ".claude-plugin/marketplace.json"
  | PluginJson target => target +:+ "/.claude-plugin/plugin.json"
  end.

(** [with open(path, 'r', encoding='utf-8') as f: json.load(f)] *)
Definition load_json (l : location) : M world json :=
  fun w =>
    match find (fs w) l with
    | inr (File (JsonText v)) => (Return v, w)
    | inr (File (OtherText _)) =>
        (Raise (error JSONDecodeError "Expecting value"), w)
    | inr (Dir _) =>
        (Raise (error IsADirectoryError
                  ("Is a directory: " +:+ location_name l)), w)
    | inl c =>
        (Raise (error c ("Cannot open: " +:+ location_name l)), w)
    end.

Definition store (f : filesystem) (l : location) (c : content)
  : exc_class + filesystem :=
  match l with
  | Marketplace =>
      match marketplace_file f with
      | Some (File _) =>
          inr {| template_dir := template_dir f;
                 marketplace_file := Some (File c);
                 project_root := project_root f |}
      | Some (Dir _) => inl IsADirectoryError
      | None => inl FileNotFoundError
      end
  | PluginJson target =>
      match project_root f !! target with
      | Some n =>
          match put_file manifest_path c n with
          | inr n' =>
              inr {| template_dir := template_dir f;
                     marketplace_file := marketplace_file f;
                     project_root := <[target := n']> (project_root f) |}
          | inl e => inl e
          end
      | None => inl FileNotFoundError
      end
  end.

(** [with open(path, 'w', encoding='utf-8') as f:
       json.dump(data, f, indent=2, ensure_ascii=False)].
    Both uses rewrite a file that has just been read; opening a path that
    names no file raises here as it does when its directory is missing.
    The write is taken as a whole: a failure between the opening, which
    truncates the file, and the end of [json.dump] is outside this
    model. *)
Definition dump_json (l : location) (data : json) : M world unit :=
  fun w =>
    match store (fs w) l (JsonText data) with
    | inr f' =>
        (Return tt,
         {| fs := f'; keyboard := keyboard w; log := log w ++ [Wrote l] |})
    | inl c =>
        (Raise (error c ("Cannot open: " +:+ location_name l)), w)
    end.

(** [shutil.copytree(self.template_dir, self.project_root / name)]: the
    source is listed first, then the destination directory is made, which
    fails when the path exists.  Other failures of the operating system
    (permissions, a parent that is a file, a full disk) are outside this
    model. *)
Definition copytree (target : string) : M world unit :=
  fun w =>
    match template_dir (fs w) with
    | None =>
        (Raise (error FileNotFoundError "No such file or directory"), w)
    | Some (File _) =>
        (Raise (error NotADirectoryError "Not a directory"), w)
    | Some (Dir tree) =>
        match project_root (fs w) !! target with
        | Some _ => (Raise (error FileExistsError "File exists"), w)
        | None =>
            (Return tt,
             {| fs := {| template_dir := template_dir (fs w);
                         marketplace_file := marketplace_file (fs w);
                         project_root :=
                           <[target := Dir tree]> (project_root (fs w)) |};
                keyboard := keyboard w;
                log := log w ++ [CopiedTree target] |})
        end
    end.

(** [(self.project_root / name).exists()], taken to answer: an [OSError]
    that [exists] would let through is outside this model. *)
Definition exists_in_root (f : filesystem) (name : string) : bool :=
  match project_root f !! name with Some _ => true | None => false end.

(** ** Operations on decoded values *)

(** [v[key]] with a [str] key. *)
Definition getitem (v : json) (key : string) : outcome json :=
  match v with
  | JObj d =>
      match dict_get key d with
      | Some x => Return x
      | None => Raise (error KeyError ("'" +:+ key +:+ "'"))
      end
  | JArr _ =>
      Raise (error TypeError "list indices must be integers or slices, not str")
  | JStr _ =>
      Raise (error TypeError "string indices must be integers, not 'str'")
  | _ =>
      Raise (error TypeError
               ("'" +:+ type_name v +:+ "' object is not subscriptable"))
  end.

(** [v[key] = x] with a [str] key; the result is [v] after the assignment. *)
Definition setitem (v : json) (key : string) (x : json) : outcome json :=
  match v with
  | JObj d => Return (JObj (dict_set key x d))
  | JArr _ =>
      Raise (error TypeError "list indices must be integers or slices, not str")
  | _ =>
      Raise (error TypeError
               ("'" +:+ type_name v +:+
                "' object does not support item assignment"))
  end.

(** [v[outer][inner] = x]: the inner mapping is the object held by [v], so
    the assignment shows in [v]; the binding of [outer] keeps its place. *)
Definition setitem_nested (v : json) (outer inner : string) (x : json)
  : outcome json :=
  match getitem v outer with
  | Return held =>
      match setitem held inner x with
      | Return held' => setitem v outer held'
      | Raise r => Raise r
      end
  | Raise r => Raise r
  end.

(** [v.get(key, default)] *)
Definition get_method (v : json) (key : string) (default : json)
  : outcome json :=
  match v with
  | JObj d =>
      Return (match dict_get key d with Some x => x | None => default end)
  | _ =>
      Raise (error AttributeError
               ("'" +:+ type_name v +:+ "' object has no attribute 'get'"))
  end.

Fixpoint chars (s : string) : list json :=
  match s with
  | EmptyString => []
  | String c s' => JStr (String c EmptyString) :: chars s'
  end.

(** The items [for p in v] goes through. *)
Definition iterate (v : json) : outcome (list json) :=
  match v with
  | JArr items => Return items
  | JObj d => Return (map (fun kv => JStr (fst kv)) d)
  | JStr s => Return (chars s)
  | _ =>
      Raise (error TypeError
               ("'" +:+ type_name v +:+ "' object is not iterable"))
  end.

(** [[p["name"] for p in items]] *)
Fixpoint names_of (items : list json) : outcome (list json) :=
  match items with
  | [] => Return []
  | p :: rest =>
      match getitem p "name" with
      | Return n =>
          match names_of rest with
          | Return ns => Return (n :: ns)
          | Raise r => Raise r
          end
      | Raise r => Raise r
      end
  end.

(** [name in values] *)
Definition str_in (name : string) (values : list json) : bool :=
  existsb (str_eq_value name) values.

(** [v[key].append(x)]; the result is [v] after the call. *)
Definition append_at (v : json) (key : string) (x : json) : outcome json :=
  match getitem v key with
  | Return (JArr items) => setitem v key (JArr (items ++ [x]))
  | Return other =>
      Raise (error AttributeError
               ("'" +:+ type_name other +:+
                "' object has no attribute 'append'"))
  | Raise r => Raise r
  end.

(** ** Prompt loops

    Each [while True] loop of the script reads one line per round, and either
    complains and goes round again or leaves with a value. *)
Inductive verdict (A : Type) : Type :=
| Again (complaint : string)
| Leave (a : A).
Arguments Again {A} complaint.
Arguments Leave {A} a.

Fixpoint rounds {A} (prompt : string) (body : string -> verdict A)
         (lines : list string) : list event * list string * outcome A :=
  match lines with
  | [] => ([Prompt prompt], [], Raise (error EOFError "EOF when reading a line"))
  | line :: rest =>
      match body line with
      | Leave a => ([Prompt prompt], rest, Return a)
      | Again complaint =>
          let '(evs, rest', r) := rounds prompt body rest in
          (Prompt prompt :: Print complaint :: evs, rest', r)
      end
  end.

Definition while_input {A} (prompt : string)
           (body : filesystem -> string -> verdict A) : M world A :=
  fun w =>
    let '(evs, rest, r) := rounds prompt (body (fs w)) (keyboard w) in
    (r, {| fs := fs w; keyboard := rest; log := log w ++ evs |}).

(** ** [PluginCreator] *)

Record plugin_info : Type := Info {
  name : string;
  description : string;
  author : string;
  version : string
}.

Definition template_path : string := "tools/plugin-template".
Definition marketplace_path : string := ".claude-plugin/marketplace.json".

Definition validate_environment : M world bool :=
  fun w =>
    match template_dir (fs w) with
    | None =>
        (print ("❌ Error: Template directory not found at " +:+ template_path)
         ;;; ret false) w
    | Some _ =>
        match marketplace_file (fs w) with
        | None =>
            (print ("❌ Error: marketplace.json not found at "
                    +:+ marketplace_path) ;;; ret false) w
        | Some _ => ret true w
        end
    end.

(** Body of the name loop, lines 42-52. *)
Definition check_name (f : filesystem) (line : string) : verdict string :=
  let name := strip line in
  if negb (truthy name) then Again "❌ Plugin name cannot be empty!"
  else if contains " " name then
    Again "❌ Plugin name should not contain spaces (use kebab-case)"
  else if exists_in_root f name then
    Again ("❌ Directory '" +:+ name +:+ "' already exists!")
  else Leave name.

(** Body of the description and author loops. *)
Definition check_filled (complaint : string) (_ : filesystem) (line : string)
  : verdict string :=
  let text := strip line in
  if negb (truthy text) then Again complaint else Leave text.

(** Body of the two yes/no loops. *)
Definition check_yes_no (_ : filesystem) (line : string) : verdict string :=
  let choice := lower (strip line) in
  if String.eqb choice "y" || String.eqb choice "n" then Leave choice
  else Again "❌ Please enter 'y' or 'n'".

Definition rule : string := repeat_str "=" 60.

Definition get_user_input : M world plugin_info :=
  print (nl +:+ rule) ;;;
  print "   Claude Code Plugin Creator" ;;;
  print (rule +:+ nl) ;;;
  name <- while_input "Plugin name (kebab-case, e.g., my-plugin): "
            check_name ;;
  description <- while_input "Description: "
                   (check_filled "❌ Description cannot be empty!") ;;
  author <- while_input "Author name: "
              (check_filled "❌ Author name cannot be empty!") ;;
  line <- input "Version [1.0.0]: " ;;
  let version := strip line in
  let version := if negb (truthy version) then "1.0.0" else version in
  ret {| name := name; description := description;
         author := author; version := version |}.

(** Returns the target directory, named by its entry in the root, or
    [None]. *)
Definition create_plugin_directory (info : plugin_info)
  : M world (option string) :=
  let plugin_name := name info in
  print (nl +:+ "📁 Creating plugin directory: " +:+ plugin_name) ;;;
  try_except
    (copytree plugin_name ;;;
     print "✅ Directory created successfully" ;;;
     ret (Some plugin_name))
    [ (AnyException,
         fun e => print ("❌ Error creating directory: " +:+ exc_str e) ;;;
                  ret None) ].

Definition update_plugin_json (target_dir : string) (info : plugin_info)
  : M world bool :=
  print (nl +:+ "📝 Updating plugin.json") ;;;
  try_except
    (plugin_data <- load_json (PluginJson target_dir) ;;
     plugin_data <- lift (setitem plugin_data "name" (JStr (name info))) ;;
     plugin_data <- lift (setitem plugin_data "description"
                            (JStr (description info))) ;;
     plugin_data <- lift (setitem plugin_data "version"
                            (JStr (version info))) ;;
     plugin_data <- lift (setitem_nested plugin_data "author" "name"
                            (JStr (author info))) ;;
     dump_json (PluginJson target_dir) plugin_data ;;;
     print "✅ plugin.json updated successfully" ;;;
     ret true)
    [ (AnyException,
         fun e => print ("❌ Error updating plugin.json: " +:+ exc_str e) ;;;
                  ret false) ].

Definition new_plugin_entry (info : plugin_info) : json :=
  JObj [ ("name", JStr (name info));
         ("source", JStr ("./" +:+ name info));
         ("description", JStr (description info)) ].

Definition register_to_marketplace (info : plugin_info) : M world bool :=
  print (nl +:+ "🏪 Marketplace Registration") ;;;
  choice <- while_input "Register this plugin to marketplace.json? (y/n): "
              check_yes_no ;;
  if String.eqb choice "n" then
    print "⏭️  Skipped marketplace registration" ;;; ret true
  else
    try_except
      (marketplace_data <- load_json Marketplace ;;
       listed <- lift (get_method marketplace_data "plugins" (JArr [])) ;;
       items <- lift (iterate listed) ;;
       existing_plugins <- lift (names_of items) ;;
       if str_in (name info) existing_plugins then
         print ("⚠️  Plugin '" +:+ name info
                +:+ "' already exists in marketplace.json") ;;;
         ret true
       else
         marketplace_data <-
           lift (match marketplace_data with
                 | JObj d =>
                     if negb (dict_has "plugins" d)
                     then setitem marketplace_data "plugins" (JArr [])
                     else Return marketplace_data
                 | _ => Return marketplace_data
                 end) ;;
         marketplace_data <-
           lift (append_at marketplace_data "plugins"
                   (new_plugin_entry info)) ;;
         dump_json Marketplace marketplace_data ;;;
         print "✅ Plugin registered to marketplace.json" ;;;
         ret true)
      [ (AnyException,
           fun e => print ("❌ Error updating marketplace.json: "
                           +:+ exc_str e) ;;;
                    ret false) ].

Definition print_success_message (info : plugin_info) : M world unit :=
  print (nl +:+ rule) ;;;
  print "   ✅ Plugin Created Successfully!" ;;;
  print rule ;;;
  print (nl +:+ "Plugin Name: " +:+ name info) ;;;
  print ("Location: ./" +:+ name info) ;;;
  print (nl +:+ "📖 Next Steps:") ;;;
  print ("   1. cd " +:+ name info) ;;;
  print "   2. Add your custom agents, commands, hooks, or skills" ;;;
  print "   3. Update README.md with usage instructions" ;;;
  print "   4. Test your plugin with Claude Code" ;;;
  print (nl +:+ "🚀 Happy Plugin Development!") ;;;
  print (rule +:+ nl).

Definition print_summary (info : plugin_info) : M world unit :=
  print (nl +:+ "📋 Plugin Information Summary:") ;;;
  print ("   Name: " +:+ name info) ;;;
  print ("   Description: " +:+ description info) ;;;
  print ("   Author: " +:+ author info) ;;;
  print ("   Version: " +:+ version info).

Definition run : M world Z :=
  valid <- validate_environment ;;
  if negb valid then ret 1 else
  info <- get_user_input ;;
  print_summary info ;;;
  confirm <- while_input (nl +:+ "Proceed with plugin creation? (y/n): ")
               check_yes_no ;;
  if String.eqb confirm "n" then
    print (nl +:+ "❌ Plugin creation cancelled") ;;; ret 0
  else
    target_dir <- create_plugin_directory info ;;
    match target_dir with
    | None => ret 1
    | Some target_dir =>
        updated <- update_plugin_json target_dir info ;;
        if negb updated then
          print (nl +:+ "⚠️  Warning: plugin.json update failed, but directory was created") ;;;
          ret 1
        else
          register_to_marketplace info ;;;
          print_success_message info ;;;
          ret 0
    end.

Definition main : M world unit :=
  exit_code <- run ;;
  sys_exit exit_code.

(** ** Phases of [run], named for the statements below *)

(** Lines 193-206: the descriptor is collected, the summary shown and the
    confirmation loop left with ["y"] or ["n"]. *)
Definition gather : M world (plugin_info * string) :=
  info <- get_user_input ;;
  print_summary info ;;;
  confirm <- while_input (nl +:+ "Proceed with plugin creation? (y/n): ")
               check_yes_no ;;
  ret (info, confirm).


(** Validation passed and the user confirmed with [answer], leaving [wc]. *)
Definition answered (w : world) (answer : string) (info : plugin_info)
           (wc : world) : Prop :=
  exists w0, validate_environment w = (Return true, w0) /\
             gather w0 = (Return (info, answer), wc).



(** The directory was created and [update_plugin_json] then ran in [wd]. *)
Definition copied (w : world) (info : plugin_info) (target : string)
           (wd : world) : Prop :=
  exists wc, answered w "y" info wc /\
    create_plugin_directory info wc = (Return (Some target), wd).



(** The events that change the file system. *)
Definition is_write (ev : event) : bool :=
  match ev with
  | CopiedTree _ | Wrote _ => true
  | Print _ | Prompt _ => false
  end.

Definition writes (l : list event) : list event := List.filter is_write l.

(** A computation that neither changes the file system nor logs a write. *)
Definition preserves {A} (m : M world A) : Prop :=
  forall w, fs (snd (m w)) = fs w /\
            writes (log (snd (m w))) = writes (log w).

(** A computation that, when it raises, raises an exception proper. *)
Definition no_exit {A} (m : M world A) : Prop :=
  forall w r w', m w = (Raise r, w') -> exists e, r = Exception e.

(** An outcome that, when it is an exception, is an exception proper. *)
Definition proper {A} (o : outcome A) : Prop :=
  forall r, o = Raise r -> exists e, r = Exception e.

(** A computation that always returns. *)
Definition total {A} (m : M world A) : Prop :=
  forall w, exists a w', m w = (Return a, w').

(** Only the registry file may differ. *)
Definition only_registry (f f' : filesystem) : Prop :=
  template_dir f' = template_dir f /\
  project_root f' = project_root f.

(** The manifest below [target] can be read as a mapping whose [author] is
    a mapping: what lines 105-112 need in order not to raise. *)
Definition manifest_updatable (f : filesystem) (target : string) : Prop :=
  exists n manifest authored,
    project_root f !! target = Some n /\
    node_at manifest_path n = inr (File (JsonText (JObj manifest))) /\
    dict_get "author" manifest = Some (JObj authored).

(** [path] is [prefix] followed by something non-empty or nothing. *)
Fixpoint is_prefix (prefix path : list string) : bool :=
  match prefix, path with
  | [], _ => true
  | p :: prefix', q :: path' => String.eqb p q && is_prefix prefix' path'
  | _ :: _, [] => false
  end.

(** [any(c.isspace() for c in s)] *)
Fixpoint has_whitespace (s : string) : bool :=
  match s with
  | EmptyString => false
  | String c s' => is_space c || has_whitespace s'
  end.

(** A line the name loop turns down. *)
Definition turned_down (f : filesystem) (line : string) : Prop :=
  exists complaint, check_name f line = Again complaint.

(** The plugins list of a registry document: [data.get("plugins", [])]. *)
Definition plugins_of (registry : dict) : json :=
  match dict_get "plugins" registry with Some v => v | None => JArr [] end.

(** A record of the registry: a mapping with a [name]. *)
Definition is_record (p : json) : Prop :=
  exists fields v, p = JObj fields /\ dict_get "name" fields = Some v.

(** A record named [n]. *)
Definition named (n : string) (p : json) : Prop :=
  exists fields, p = JObj fields /\ dict_get "name" fields = Some (JStr n).

(** The registry file can be read as a mapping whose [plugins] value (the
    empty list when the key is missing) is a list of records: what lines
    140-159 need in order not to raise. *)
Definition registry_readable (f : filesystem) : Prop :=
  exists registry items,
    marketplace_file f = Some (File (JsonText (JObj registry))) /\
    plugins_of registry = JArr items /\
    Forall is_record items.

(** ** Sample surroundings used in the examples *)

Definition sample_manifest : json :=
  JObj [ ("name", JStr "plugin-template");
         ("description", JStr "A template");
         ("version", JStr "0.1.0");
         ("author", JObj [("name", JStr "Your Name"); ("url", JStr "")]);
         ("keywords", JArr []) ].

Definition sample_template : node :=
  Dir [ (".claude-plugin", Dir [("plugin.json", File (JsonText sample_manifest))]);
        ("README.md", File (OtherText "# Plugin template")) ].

Definition sample_record : json :=
  JObj [ ("name", JStr "csharp-plugin");
         ("source", JStr "./csharp-plugin");
         ("description", JStr "C# tooling") ].

Definition sample_registry : json :=
  JObj [ ("name", JStr "marketplace"); ("plugins", JArr [sample_record]) ].

Definition sample_fs : filesystem :=
  {| template_dir := Some sample_template;
     marketplace_file := Some (File (JsonText sample_registry));
     project_root := {[ "csharp-plugin" := Dir [] ]} |}.

(** A template whose manifest is not JSON. *)
Definition broken_fs : filesystem :=
  {| template_dir :=
       Some (Dir [(".claude-plugin",
                   Dir [("plugin.json", File (OtherText "{"))])]);
     marketplace_file := Some (File (JsonText sample_registry));
     project_root := ∅ |}.

Definition session (f : filesystem) (lines : list string) : world :=
  {| fs := f; keyboard := lines; log := [] |}.

Definition tab : string := String (ascii_of_nat 9) EmptyString.

End Scaffold.

(* ===================================================================== *)
(** * Facts about the Python fragment                                     *)
(* ===================================================================== *)

Module PyFacts.
Import Py.

Example endswith_cs : endswith "src/Foo.cs" ".cs" = true.
Proof. reflexivity. Qed.

Example endswith_short : endswith "cs" ".cs" = false.
Proof. reflexivity. Qed.

Example strip_both : strip "  a b	 " = "a b".
Proof. reflexivity. Qed.

Example lower_mixed : lower "CSharpier Not Found" = "csharpier not found".
Proof. reflexivity. Qed.

(** Lower-casing never turns white space into something else, nor back. *)
Lemma is_space_lower_char (c : ascii) : is_space (lower_char c) = is_space c.
Proof. destruct c as [[] [] [] [] [] [] [] []]; vm_compute; reflexivity. Qed.

Lemma lower_lstrip (s : string) : lower (lstrip s) = lstrip (lower s).
Proof.
  induction s as [|c s IH]; simpl; [reflexivity|].
  rewrite is_space_lower_char.
  destruct (is_space c); [exact IH | reflexivity].
Qed.

Lemma lower_rstrip (s : string) : lower (rstrip s) = rstrip (lower s).
Proof.
  induction s as [|c s IH]; simpl; [reflexivity|].
  rewrite <- IH, is_space_lower_char.
  destruct (rstrip s) as [|a r]; simpl.
  - destruct (is_space c); reflexivity.
  - reflexivity.
Qed.

Lemma lower_strip (s : string) : lower (strip s) = strip (lower s).
Proof. unfold strip. now rewrite lower_rstrip, lower_lstrip. Qed.

Lemma startswith_empty (p : string) :
  startswith EmptyString p = match p with EmptyString => true | _ => false end.
Proof. destruct p; reflexivity. Qed.

Lemma startswith_nil (s : string) : startswith s EmptyString = true.
Proof. destruct s; reflexivity. Qed.

Lemma ascii_eqb_space (a c : ascii) :
  is_space a = false -> is_space c = true -> Ascii.eqb a c = false.
Proof.
  intros Ha Hc. destruct (Ascii.eqb_spec a c) as [->|]; congruence.
Qed.

(** Leading white space cannot start a word that begins with a letter. *)
Lemma contains_lstrip (p s : string) (a : ascii) :
  first_char p = Some a -> is_space a = false ->
  contains p (lstrip s) = contains p s.
Proof.
  intros Hp Ha. destruct p as [|a' p']; [discriminate|].
  simpl in Hp. injection Hp as ->.
  induction s as [|c s IH]; [reflexivity|].
  cbn [lstrip]. destruct (is_space c) eqn:Hc; [|reflexivity].
  rewrite IH. cbn [contains startswith].
  now rewrite (ascii_eqb_space a c Ha Hc).
Qed.

Lemma startswith_rstrip (s p : string) (z : ascii) :
  last_char p = Some z -> is_space z = false ->
  startswith (rstrip s) p = startswith s p.
Proof.
  revert p. induction s as [|c s IH]; intros p Hp Hz; [reflexivity|].
  destruct p as [|a p']; [discriminate|].
  destruct p' as [|b p''].
  - simpl in Hp. injection Hp as ->.
    change (startswith (String c s) (String z EmptyString))
      with (Ascii.eqb z c && startswith s EmptyString).
    rewrite startswith_nil.
    cbn [rstrip]. destruct (rstrip s) as [|x r].
    + destruct (is_space c) eqn:Hc; cbn [startswith].
      * now rewrite (ascii_eqb_space z c Hz Hc).
      * reflexivity.
    + cbn [startswith]. reflexivity.
  - assert (Hp' : last_char (String b p'') = Some z) by exact Hp.
    specialize (IH _ Hp' Hz).
    cbn [rstrip]. destruct (rstrip s) as [|x r].
    + rewrite startswith_empty in IH.
      change (startswith (String c s) (String a (String b p'')))
        with (Ascii.eqb a c && startswith s (String b p'')).
      rewrite <- IH.
      destruct (is_space c); cbn [startswith]; now rewrite ?andb_false_r.
    + change (startswith (String c s) (String a (String b p'')))
        with (Ascii.eqb a c && startswith s (String b p'')).
      rewrite <- IH. reflexivity.
Qed.

Lemma contains_rstrip (p s : string) (z : ascii) :
  last_char p = Some z -> is_space z = false ->
  contains p (rstrip s) = contains p s.
Proof.
  intros Hp Hz. induction s as [|c s IH]; [reflexivity|].
  cbn [contains]. rewrite <- IH.
  rewrite <- (startswith_rstrip (String c s) p z Hp Hz).
  cbn [rstrip]. destruct (rstrip s) as [|x r].
  - destruct (is_space c); cbn [contains];
      destruct (startswith _ p); reflexivity.
  - reflexivity.
Qed.

(** Stripping a text neither adds nor removes an occurrence of a word. *)
Lemma contains_strip (p s : string) :
  solid p -> contains p (strip s) = contains p s.
Proof.
  intros [[a [Ha Hsa]] [z [Hz Hsz]]]. unfold strip.
  rewrite (contains_rstrip p _ z Hz Hsz).
  exact (contains_lstrip p s a Ha Hsa).
Qed.

Lemma contains_lower_strip (p s : string) :
  solid p -> contains p (lower (strip s)) = contains p (lower s).
Proof. intros Hp. rewrite lower_strip. now apply contains_strip. Qed.

Lemma solid_csharpier : solid "csharpier".
Proof. split; eexists; split; reflexivity. Qed.

Lemma solid_not_found : solid "not found".
Proof. split; eexists; split; reflexivity. Qed.

Lemma strip_idempotent_empty (s : string) :
  truthy (strip s) = false <-> strip s = EmptyString.
Proof. destruct (strip s); simpl; split; congruence. Qed.

(** Reading back what was just assigned. *)
Lemma dict_get_set_same (k : string) (v : json) (d : dict) :
  dict_get k (dict_set k v d) = Some v.
Proof.
  induction d as [|[k' v'] d IH]; simpl.
  - now rewrite String.eqb_refl.
  - destruct (String.eqb k k') eqn:E; simpl; rewrite ?String.eqb_refl, ?E; auto.
Qed.

Lemma dict_get_set_other (k k' : string) (v : json) (d : dict) :
  k <> k' -> dict_get k' (dict_set k v d) = dict_get k' d.
Proof.
  intros Hne. induction d as [|[k0 v0] d IH]; simpl.
  - destruct (String.eqb_spec k' k); [congruence | reflexivity].
  - destruct (String.eqb_spec k k0) as [->|]; simpl.
    + destruct (String.eqb_spec k' k0); [congruence | reflexivity].
    + destruct (String.eqb k' k0); auto.
Qed.

(** ** Further facts about [str] *)

Lemma startswith_append (p s : string) : startswith (p +:+ s) p = true.
Proof.
  induction p as [|a p IH]; [apply startswith_nil|].
  change (Ascii.eqb a a && startswith (p +:+ s) p = true).
  now rewrite Ascii.eqb_refl, IH.
Qed.

Lemma lower_append (a b : string) : lower (a +:+ b) = lower a +:+ lower b.
Proof. induction a as [|c a IH]; simpl; [reflexivity | now rewrite IH]. Qed.

Lemma contains_append_r (p a b : string) :
  contains p b = true -> contains p (a +:+ b) = true.
Proof.
  intros H. induction a as [|c a IH]; [exact H|].
  change (startswith (String c (a +:+ b)) p || contains p (a +:+ b) = true).
  rewrite IH. apply orb_true_r.
Qed.

Lemma lstrip_fixed (t : string) :
  (forall a, first_char t = Some a -> is_space a = false) -> lstrip t = t.
Proof.
  destruct t as [|c t]; cbn; [reflexivity|].
  intros H. now rewrite (H c eq_refl).
Qed.

Lemma first_char_lstrip (s : string) (a : ascii) :
  first_char (lstrip s) = Some a -> is_space a = false.
Proof.
  induction s as [|c s IH]; cbn; [discriminate|].
  destruct (is_space c) eqn:E; [exact IH|].
  cbn. intros H. inversion H; subst. exact E.
Qed.

Lemma first_char_rstrip (t : string) (a : ascii) :
  first_char (rstrip t) = Some a -> first_char t = Some a.
Proof.
  destruct t as [|c t]; cbn; [discriminate|].
  destruct (rstrip t); [destruct (is_space c)|]; cbn; congruence.
Qed.

Lemma rstrip_rstrip (s : string) : rstrip (rstrip s) = rstrip s.
Proof.
  induction s as [|c s IH]; [reflexivity|].
  cbn [rstrip]. destruct (rstrip s) as [|a r] eqn:E.
  - destruct (is_space c) eqn:Hc; cbn; [reflexivity | now rewrite Hc].
  - cbn [rstrip] in *. now rewrite IH.
Qed.

(** What [strip] returns has no white space left to strip. *)
Lemma strip_strip (s : string) : strip (strip s) = strip s.
Proof.
  unfold strip.
  rewrite (lstrip_fixed (rstrip (lstrip s))).
  - apply rstrip_rstrip.
  - intros a Ha. apply first_char_rstrip in Ha.
    now apply first_char_lstrip in Ha.
Qed.

Lemma solid_not_installed : solid "not installed".
Proof. split; eexists; split; reflexivity. Qed.

Lemma truthy_true (s : string) : truthy s = true <-> s <> EmptyString.
Proof. destruct s; cbn; split; congruence. Qed.

End PyFacts.

(* ===================================================================== *)
(** * Properties of the hook                                              *)
(* ===================================================================== *)

Module HookSpec.
Import Py Hook PyFacts.
Local Open Scope py_scope.

(** [dict.get] can only fail with an exception proper. *)
Lemma get_method_raise (v : json) (k : string) (dflt : json) (r : raised) :
  get_method v k dflt = Raise r ->
  exists msg, r = Exception (Exc AttributeError msg).
Proof. destruct v; simpl; intros H; inversion H; eauto. Qed.

Lemma file_path_of_raise (data : json) (r : raised) :
  file_path_of data = Raise r ->
  exists msg, r = Exception (Exc AttributeError msg).
Proof.
  unfold file_path_of.
  destruct (get_method data "tool_input" (JObj [])) as [ti|r'] eqn:H1.
  - apply get_method_raise.
  - intros H. inversion H; subst. eapply get_method_raise; eauto.
Qed.

(** Every [except] clause of [run_csharpier] returns a pair: the function
    never raises. *)
Lemma run_csharpier_returns (E : env) (file_path : string) (t : trace) :
  exists success message,
    run_csharpier E file_path t
    = (Return (success, message),
       t ++ [Subprocess ["dotnet"; "csharpier"; file_path]]).
Proof.
  unfold run_csharpier, try_except, bind, run_process, ret.
  destruct (subprocess_run E _) as [rc out err|[c msg]].
  - destruct (rc =? 0); [eauto|].
    destruct (_ && _); eauto.
  - destruct c; simpl; eauto.
Qed.

Lemma main_unreadable (E : env) (e : exception) :
  stdin E = Unreadable e ->
  main E [] =
    (Raise (SystemExit 0),
     [Stderr (if exc_class_eqb JSONDecodeError (exc_type e)
              then "[CSharpier] Warning: Invalid JSON input"
              else "[CSharpier] Warning: " +:+ exc_str e)]).
Proof.
  intros H. unfold main, try_except, bind, json_load_stdin, lift.
  rewrite H. destruct e as [c msg]. destruct c; reflexivity.
Qed.

Lemma main_bad_shape (E : env) (data : json) (msg : string) :
  stdin E = Parsed data ->
  file_path_of data = Raise (Exception (Exc AttributeError msg)) ->
  main E [] = (Raise (SystemExit 0), [Stderr ("[CSharpier] Warning: " +:+ msg)]).
Proof.
  intros H1 H2. unfold main, try_except, bind, json_load_stdin, lift.
  rewrite H1, H2. reflexivity.
Qed.

Lemma main_not_str (E : env) (data v : json) :
  stdin E = Parsed data ->
  file_path_of data = Return v ->
  (forall p, v <> JStr p) ->
  main E [] =
    (Raise (SystemExit 0),
     [Stderr ("[CSharpier] Warning: '" +:+ type_name v
              +:+ "' object has no attribute 'endswith'")]).
Proof.
  intros H1 H2 Hv. unfold main, try_except, bind, json_load_stdin, lift.
  rewrite H1, H2. destruct v; try reflexivity. now destruct (Hv s).
Qed.

(** What [main] does once a [str] path has been extracted. *)
Lemma main_with_path (E : env) (data : json) (p : string) :
  stdin E = Parsed data ->
  file_path_of data = Return (JStr p) ->
  main E [] =
    if negb (endswith p ".cs") then (Raise (SystemExit 0), [])
    else if negb (path_exists E p) then (Raise (SystemExit 0), [])
    else if negb (check_csharpier_installed E) then
      (Raise (SystemExit 0),
       [Stderr "[CSharpier] Warning: dotnet CLI not found. Skipping format."])
    else
      match run_csharpier E p [] with
      | (Return (success, message), t) =>
          (Raise (SystemExit 0),
           t ++ [if success then Stdout ("[CSharpier] " +:+ message)
                 else if contains "not installed" (lower message) then
                   Stderr "[CSharpier] Warning: CSharpier not installed. Install with: dotnet tool install -g csharpier"
                 else Stderr ("[CSharpier] Warning: " +:+ message)])
      | (Raise r, t) => (Raise r, t)
      end.
Proof.
  intros H1 H2. unfold main, try_except, bind, json_load_stdin, lift.
  rewrite H1, H2.
  destruct (endswith p ".cs"); [|reflexivity].
  destruct (path_exists E p); [|reflexivity].
  destruct (check_csharpier_installed E); [|reflexivity].
  cbn [negb].
  destruct (run_csharpier_returns E p []) as (success & message & ->).
  destruct success; [reflexivity|].
  destruct (contains "not installed" (lower message)); reflexivity.
Qed.

Lemma main_exits_zero (E : env) : fst (main E []) = Raise (SystemExit 0).
Proof.
  destruct (stdin E) as [data|e] eqn:Hin.
  - destruct (file_path_of data) as [v|r] eqn:Hp.
    + destruct v;
        try (erewrite main_not_str; eauto; congruence).
      rewrite (main_with_path E data s Hin Hp).
      destruct (endswith s ".cs"); [|reflexivity].
      destruct (path_exists E s); [|reflexivity].
      destruct (check_csharpier_installed E); [|reflexivity].
      cbn [negb].
      destruct (run_csharpier_returns E s []) as (success & message & ->).
      reflexivity.
    + destruct (file_path_of_raise _ _ Hp) as [msg ->].
      now rewrite (main_bad_shape E data msg Hin Hp).
  - now rewrite (main_unreadable E e Hin).
Qed.

(** C1: whatever arrives on standard input and whatever the surroundings
    answer, the hook ends through [sys.exit(0)], so its exit status is 0;
    when [json.load] rejects the input as malformed JSON the only thing the
    hook does before it is to print the invalid-input warning on the error
    stream. *)
Theorem hook_always_exits_zero (E : env) (msg : string) :
  exit_code E = 0 /\
  fst (main E []) = Raise (SystemExit 0) /\
  main (with_stdin E (Unreadable (Exc JSONDecodeError msg))) []
  = (Raise (SystemExit 0), [Stderr "[CSharpier] Warning: Invalid JSON input"]).
Proof.
  split; [|split].
  - unfold exit_code. now rewrite main_exits_zero.
  - apply main_exits_zero.
  - now rewrite (main_unreadable _ (Exc JSONDecodeError msg)).
Qed.

(** A subprocess is launched only for an existing file whose path is a
    [str] ending in [".cs"], and only when the toolchain probe succeeds. *)
Lemma subprocess_only_for_cs (E : env) :
  subprocess_calls (events E) <> [] ->
  exists data p,
    stdin E = Parsed data /\ file_path_of data = Return (JStr p) /\
    endswith p ".cs" = true /\ path_exists E p = true /\
    check_csharpier_installed E = true.
Proof.
  unfold events. intros Hcalls.
  destruct (stdin E) as [data|e] eqn:Hin.
  - destruct (file_path_of data) as [v|r] eqn:Hp.
    + assert (Hstr : (exists p, v = JStr p) \/ (forall p, v <> JStr p))
        by (destruct v; eauto; right; congruence).
      destruct Hstr as [[s ->] | Hother];
        [| rewrite (main_not_str E data v Hin Hp Hother) in Hcalls;
           now destruct Hcalls].
      rewrite (main_with_path E data s Hin Hp) in Hcalls.
      destruct (endswith s ".cs") eqn:H1; [|now destruct Hcalls].
      destruct (path_exists E s) eqn:H2; [|now destruct Hcalls].
      destruct (check_csharpier_installed E) eqn:H3; [|now destruct Hcalls].
      exists data, s. auto.
    + destruct (file_path_of_raise _ _ Hp) as [msg ->].
      rewrite (main_bad_shape E data msg Hin Hp) in Hcalls.
      now destruct Hcalls.
  - rewrite (main_unreadable E e Hin) in Hcalls. now destruct Hcalls.
Qed.

(** C2: when the extracted file path does not end in [".cs"], the hook
    launches no subprocess, prints nothing and exits with status 0. *)
Theorem other_extension_is_noop (E : env) (data : json) (p : string) :
  stdin E = Parsed data ->
  file_path_of data = Return (JStr p) ->
  endswith p ".cs" = false ->
  subprocess_calls (events E) = [] /\ events E = [] /\ exit_code E = 0.
Proof.
  intros Hin Hp Hext. unfold events, exit_code.
  rewrite (main_with_path E data p Hin Hp), Hext. now cbn.
Qed.

Lemma other_extension_is_noop_witness :
  let E := quiet_env (Parsed (edit_event "README.md")) in
  subprocess_calls (events E) = [] /\ events E = [] /\ exit_code E = 0.
Proof.
  apply (other_extension_is_noop
           (quiet_env (Parsed (edit_event "README.md")))
           (edit_event "README.md") "README.md"); reflexivity.
Defined.

(** C4: for an input naming an existing [".cs"] file, when
    [check_csharpier_installed] reports the toolchain unavailable no
    subprocess is launched, the warning goes to the error stream and the
    hook exits with status 0. *)
Theorem missing_toolchain_skips_format (E : env) (data : json) (p : string) :
  stdin E = Parsed data ->
  file_path_of data = Return (JStr p) ->
  endswith p ".cs" = true ->
  path_exists E p = true ->
  check_csharpier_installed E = false ->
  subprocess_calls (events E) = [] /\
  events E
  = [Stderr "[CSharpier] Warning: dotnet CLI not found. Skipping format."] /\
  exit_code E = 0.
Proof.
  intros Hin Hp Hext Hex Hprobe. unfold events, exit_code.
  rewrite (main_with_path E data p Hin Hp), Hext, Hex, Hprobe. now cbn.
Qed.

Lemma missing_toolchain_skips_format_witness :
  let E := quiet_env (Parsed (edit_event "Foo.cs")) in
  subprocess_calls (events E) = [] /\
  events E
  = [Stderr "[CSharpier] Warning: dotnet CLI not found. Skipping format."] /\
  exit_code E = 0.
Proof.
  apply (missing_toolchain_skips_format
           (quiet_env (Parsed (edit_event "Foo.cs")))
           (edit_event "Foo.cs") "Foo.cs"); reflexivity.
Defined.

(** C3 (as the code has it): after a nonzero exit code [run_csharpier]
    reports failure; the message is ["CSharpier not installed"] exactly when
    the lower-cased stderr contains both ["csharpier"] and ["not found"];
    otherwise it is ["Format failed: "] followed by stderr with surrounding
    white space stripped, or by stdout when nothing is left of stderr after
    stripping. *)
Theorem nonzero_exit_classified
        (E : env) (file_path : string) (rc : Z) (out err : string) (t : trace) :
  subprocess_run E ["dotnet"; "csharpier"; file_path] = Completed rc out err ->
  rc <> 0 ->
  exists message,
    fst (run_csharpier E file_path t) = Return (false, message) /\
    (message = "CSharpier not installed" <->
       contains "csharpier" (lower err) = true /\
       contains "not found" (lower err) = true) /\
    (message <> "CSharpier not installed" ->
       message = "Format failed: "
                 +:+ (if truthy (strip err) then strip err else out)).
Proof.
  intros Hrun Hrc.
  unfold run_csharpier, try_except, bind, run_process, ret. rewrite Hrun.
  apply Z.eqb_neq in Hrc. rewrite Hrc.
  rewrite (contains_lower_strip "csharpier" err solid_csharpier).
  rewrite (contains_lower_strip "not found" err solid_not_found).
  destruct (contains "csharpier" (lower err));
    destruct (contains "not found" (lower err)); cbn [andb fst];
    eexists; (split; [reflexivity|]); unfold str_or;
    (split; [split; [discriminate || tauto | intros [? ?]; congruence || reflexivity]
            | intros; congruence || reflexivity]).
Qed.

Lemma nonzero_exit_classified_witness :
  exists message,
    fst (run_csharpier (failing_env 2 "" "error: csharpier: command not found")
           "Foo.cs" [])
    = Return (false, message) /\
    message = "CSharpier not installed".
Proof.
  destruct (nonzero_exit_classified
              (failing_env 2 "" "error: csharpier: command not found")
              "Foo.cs" 2 "" "error: csharpier: command not found" [])
    as (message & Hret & Hiff & _); [reflexivity | lia |].
  exists message. split; [exact Hret|].
  apply Hiff. split; reflexivity.
Defined.

(** C3 fails as worded: stderr holding only a line feed is not empty, yet
    the message carries stdout and nothing of stderr. *)
Lemma blank_stderr_reports_stdout :
  fst (run_csharpier (failing_env 1 "out" nl) "Foo.cs" [])
  = Return (false, "Format failed: out") /\
  nl <> EmptyString /\
  contains nl "Format failed: out" = false.
Proof. repeat split; [discriminate]. Qed.

(** C10 (as the code has it): for a document that holds no mapping
    [tool_input] with a [file_path] key, no subprocess is launched and the
    exit status is 0.  When the document is a mapping and [tool_input] is
    missing from it, or is a mapping without [file_path], the path defaults
    to the empty string and the hook is silent.  When the document or its
    [tool_input] is not a mapping the lookup raises, and the hook prints a
    warning with the text of the exception. *)
Theorem missing_path_is_harmless (E : env) (data : json) :
  stdin E = Parsed data ->
  no_nested_path data = true ->
  subprocess_calls (events E) = [] /\
  exit_code E = 0 /\
  (path_missing data = true ->
     file_path_of data = Return (JStr "") /\ events E = []) /\
  (path_missing data = false ->
     exists msg,
       file_path_of data = Raise (Exception (Exc AttributeError msg)) /\
       events E = [Stderr ("[CSharpier] Warning: " +:+ msg)]).
Proof.
  intros Hin Hno.
  assert (Hcases :
    (path_missing data = true /\ file_path_of data = Return (JStr "")) \/
    (path_missing data = false /\
     exists msg, file_path_of data = Raise (Exception (Exc AttributeError msg)))).
  { destruct data; try (right; split; [reflexivity | eexists; reflexivity]).
    unfold no_nested_path, path_missing, file_path_of, get_method in *.
    destruct (dict_get "tool_input" fields) as [ti|].
    - destruct ti; try (right; split; [reflexivity | eexists; reflexivity]).
      unfold dict_has in *. destruct (dict_get "file_path" fields0).
      + discriminate.
      + left. split; reflexivity.
    - left. split; reflexivity. }
  destruct Hcases as [[Hm Hp] | [Hm [msg Hp]]]; unfold events, exit_code.
  - rewrite (main_with_path E data "" Hin Hp). cbn.
    repeat split; try reflexivity; congruence.
  - rewrite (main_bad_shape E data msg Hin Hp). cbn.
    repeat split; try reflexivity; try congruence.
    intros _. exists msg. split; [exact Hp | reflexivity].
Qed.

Lemma missing_path_is_harmless_witness :
  let E := quiet_env (Parsed (JObj [("tool_name", JStr "Edit")])) in
  subprocess_calls (events E) = [] /\ exit_code E = 0.
Proof.
  destruct (missing_path_is_harmless
              (quiet_env (Parsed (JObj [("tool_name", JStr "Edit")])))
              (JObj [("tool_name", JStr "Edit")]))
    as (H1 & H2 & _); [reflexivity | reflexivity |].
  split; [exact H1 | exact H2].
Defined.

(** C10 fails as worded: with [tool_input] bound to [null] the nested key is
    absent, yet no path is extracted and a warning is printed. *)
Lemma null_tool_input_warns :
  let data := JObj [("tool_input", JNull)] in
  no_nested_path data = true /\
  file_path_of data <> Return (JStr "") /\
  events (quiet_env (Parsed data))
  = [Stderr "[CSharpier] Warning: 'NoneType' object has no attribute 'get'"].
Proof. repeat split. discriminate. Qed.

(** ** Further properties of the hook *)

Lemma run_csharpier_completed
      (E : env) (p : string) (rc : Z) (out err : string) (t : trace) :
  subprocess_run E (formatter_argv p) = Completed rc out err ->
  run_csharpier E p t =
    (Return (if rc =? 0 then (true, "Formatted: " +:+ p)
             else if contains "csharpier" (lower (strip err))
                     && contains "not found" (lower (strip err))
             then (false, "CSharpier not installed")
             else (false, "Format failed: " +:+ str_or (strip err) out)),
     t ++ [Subprocess (formatter_argv p)]).
Proof.
  intros H. unfold formatter_argv in H.
  unfold run_csharpier, try_except, bind, run_process, ret. rewrite H.
  destruct (rc =? 0); [reflexivity|]. destruct (_ && _); reflexivity.
Qed.

Lemma run_csharpier_failed (E : env) (p : string) (e : exception) (t : trace) :
  subprocess_run E (formatter_argv p) = Failed e ->
  run_csharpier E p t =
    (Return (false,
             match exc_type e with
             | TimeoutExpired => "Timeout formatting: " +:+ p
             | FileNotFoundError => "dotnet CLI not found"
             | _ => "Error: " +:+ exc_str e
             end),
     t ++ [Subprocess (formatter_argv p)]).
Proof.
  intros H. unfold formatter_argv in H.
  unfold run_csharpier, try_except, bind, run_process, ret. rewrite H.
  destruct e as [c msg]. destruct c; reflexivity.
Qed.

(** The line [main] prints for a result of [run_csharpier]. *)
Lemma main_launched (E : env) (data : json) (p : string)
      (success : bool) (message : string) :
  stdin E = Parsed data ->
  file_path_of data = Return (JStr p) ->
  endswith p ".cs" = true ->
  path_exists E p = true ->
  check_csharpier_installed E = true ->
  fst (run_csharpier E p []) = Return (success, message) ->
  main E [] =
    (Raise (SystemExit 0),
     [Subprocess (formatter_argv p);
      if success then Stdout ("[CSharpier] " +:+ message)
      else if contains "not installed" (lower message)
      then Stderr install_hint
      else Stderr ("[CSharpier] Warning: " +:+ message)]).
Proof.
  intros Hin Hp Hext Hex Hprobe Hrun.
  rewrite (main_with_path E data p Hin Hp), Hext, Hex, Hprobe. cbn [negb].
  destruct (run_csharpier_returns E p []) as (b & m & Heq).
  rewrite Heq in Hrun |- *. cbn [fst] in Hrun. inversion Hrun; subst.
  reflexivity.
Qed.

(** X1: for an existing [".cs"] file with the toolchain present, a
    formatter that exits with code 0 is reported on standard output as
    ["[CSharpier] Formatted: <path>"], after exactly one launch of
    [dotnet csharpier <path>], and the hook exits 0. *)
Theorem format_success_reported
        (E : env) (data : json) (p out err : string) :
  stdin E = Parsed data ->
  file_path_of data = Return (JStr p) ->
  endswith p ".cs" = true ->
  path_exists E p = true ->
  check_csharpier_installed E = true ->
  subprocess_run E ["dotnet"; "csharpier"; p] = Completed 0 out err ->
  events E = [Subprocess ["dotnet"; "csharpier"; p];
              Stdout ("[CSharpier] Formatted: " +:+ p)] /\
  exit_code E = 0.
Proof.
  intros Hin Hp Hext Hex Hprobe Hrun. unfold events, exit_code.
  rewrite (main_launched E data p true ("Formatted: " +:+ p));
    auto.
  now rewrite (run_csharpier_completed E p 0 out err).
Qed.

Lemma format_success_reported_witness :
  let E := launching_env (Parsed (edit_event "Foo.cs")) (Completed 0 "" "") in
  events E = [Subprocess ["dotnet"; "csharpier"; "Foo.cs"];
              Stdout "[CSharpier] Formatted: Foo.cs"] /\
  exit_code E = 0.
Proof.
  apply (format_success_reported
           (launching_env (Parsed (edit_event "Foo.cs")) (Completed 0 "" ""))
           (edit_event "Foo.cs") "Foo.cs" "" ""); reflexivity.
Defined.

(** X2: a [".cs"] path that names no existing file makes the hook exit 0
    at once: nothing is printed, the toolchain is not probed for a launch
    and no subprocess is started. *)
Theorem missing_file_is_noop (E : env) (data : json) (p : string) :
  stdin E = Parsed data ->
  file_path_of data = Return (JStr p) ->
  endswith p ".cs" = true ->
  path_exists E p = false ->
  events E = [] /\ exit_code E = 0.
Proof.
  intros Hin Hp Hext Hex. unfold events, exit_code.
  rewrite (main_with_path E data p Hin Hp), Hext, Hex. now cbn.
Qed.

Lemma missing_file_is_noop_witness :
  let E := absent_env (Parsed (edit_event "Gone.cs")) in
  events E = [] /\ exit_code E = 0.
Proof.
  apply (missing_file_is_noop (absent_env (Parsed (edit_event "Gone.cs")))
           (edit_event "Gone.cs") "Gone.cs"); reflexivity.
Defined.

(** X3: when [subprocess.run] raises instead of completing,
    [run_csharpier] does not let the exception out: it returns failure with
    ["Timeout formatting: <path>"] for [TimeoutExpired],
    ["dotnet CLI not found"] for [FileNotFoundError], and ["Error: "]
    followed by the text of any other exception. *)
Theorem launch_failure_is_returned
        (E : env) (p : string) (e : exception) (t : trace) :
  subprocess_run E ["dotnet"; "csharpier"; p] = Failed e ->
  fst (run_csharpier E p t) =
    Return (false,
            match exc_type e with
            | TimeoutExpired => "Timeout formatting: " +:+ p
            | FileNotFoundError => "dotnet CLI not found"
            | _ => "Error: " +:+ exc_str e
            end).
Proof. intros H. now rewrite (run_csharpier_failed E p e t H). Qed.

Lemma launch_failure_is_returned_witness :
  fst (run_csharpier
         (launching_env (Parsed (edit_event "Foo.cs"))
            (Failed (Exc TimeoutExpired "timed out after 30 seconds")))
         "Foo.cs" [])
  = Return (false, "Timeout formatting: Foo.cs").
Proof.
  apply (launch_failure_is_returned
           (launching_env (Parsed (edit_event "Foo.cs"))
              (Failed (Exc TimeoutExpired "timed out after 30 seconds")))
           "Foo.cs" (Exc TimeoutExpired "timed out after 30 seconds") []).
  reflexivity.
Defined.

(** The three shapes a run of the hook can take. *)
Lemma hook_cases (E : env) :
  events E = [] \/
  (exists text, events E = [Stderr ("[CSharpier] Warning: " +:+ text)]) \/
  (exists data p success message,
     stdin E = Parsed data /\ file_path_of data = Return (JStr p) /\
     endswith p ".cs" = true /\ path_exists E p = true /\
     check_csharpier_installed E = true /\
     fst (run_csharpier E p []) = Return (success, message) /\
     events E =
       [Subprocess (formatter_argv p);
        if success then Stdout ("[CSharpier] " +:+ message)
        else if contains "not installed" (lower message)
        then Stderr install_hint
        else Stderr ("[CSharpier] Warning: " +:+ message)]).
Proof.
  unfold events.
  destruct (stdin E) as [data|e] eqn:Hin.
  - destruct (file_path_of data) as [v|r] eqn:Hp.
    + assert (Hstr : (exists p, v = JStr p) \/ (forall p, v <> JStr p))
        by (destruct v; eauto; right; congruence).
      destruct Hstr as [[p ->] | Hother].
      * destruct (endswith p ".cs") eqn:H1;
          [|left; now rewrite (main_with_path E data p Hin Hp), H1].
        destruct (path_exists E p) eqn:H2;
          [|left; now rewrite (main_with_path E data p Hin Hp), H1, H2].
        destruct (check_csharpier_installed E) eqn:H3.
        -- right. right.
           destruct (run_csharpier_returns E p []) as (b & m & Heq).
           exists data, p, b, m.
           repeat (split; [first [reflexivity | assumption]|]).
           split; [now rewrite Heq|].
           rewrite (main_launched E data p b m); auto. now rewrite Heq.
        -- right. left. exists "dotnet CLI not found. Skipping format.".
           now rewrite (main_with_path E data p Hin Hp), H1, H2, H3.
      * right. left. eexists.
        rewrite (main_not_str E data v Hin Hp Hother). reflexivity.
    + destruct (file_path_of_raise _ _ Hp) as [msg ->].
      right. left. exists msg. now rewrite (main_bad_shape E data msg Hin Hp).
  - right. left. rewrite (main_unreadable E e Hin). cbn [snd].
    destruct (exc_class_eqb JSONDecodeError (exc_type e)).
    + exists "Invalid JSON input". reflexivity.
    + exists (exc_str e). reflexivity.
Qed.

(** X4: in one run the hook starts at most one subprocess, and when it
    does, the command is [dotnet csharpier <path>] for the extracted path,
    which then is a [str] ending in [".cs"] that names an existing file,
    with the toolchain probe positive. *)
Theorem at_most_one_launch (E : env) :
  subprocess_calls (events E) = [] \/
  exists data p,
    stdin E = Parsed data /\ file_path_of data = Return (JStr p) /\
    endswith p ".cs" = true /\ path_exists E p = true /\
    check_csharpier_installed E = true /\
    subprocess_calls (events E) = [Subprocess ["dotnet"; "csharpier"; p]].
Proof.
  destruct (hook_cases E)
    as [-> | [[text ->] | (data & p & b & m & H1 & H2 & H3 & H4 & H5 & _ & ->)]].
  - now left.
  - now left.
  - right. exists data, p. repeat (split; [assumption|]).
    destruct b; [reflexivity|].
    destruct (contains "not installed" (lower m)); reflexivity.
Qed.

(** X5: every call of [print] in the hook, on either stream and on every
    path through [main], writes a text that starts with ["[CSharpier] "].
    (The text of a failure is taken from the formatter's output as it is:
    when that holds line breaks, only the first line bears the prefix.) *)
Theorem every_print_is_tagged (E : env) :
  forallb is_tagged (events E) = true.
Proof.
  destruct (hook_cases E)
    as [-> | [[text ->] | (data & p & b & m & _ & _ & _ & _ & _ & _ & ->)]].
  - reflexivity.
  - cbn [forallb is_tagged].
    change ("[CSharpier] Warning: " +:+ text)
      with ("[CSharpier] " +:+ ("Warning: " +:+ text)).
    now rewrite startswith_append.
  - cbn [forallb is_tagged]. destruct b.
    + cbn [is_tagged]. now rewrite startswith_append.
    + destruct (contains "not installed" (lower m)); cbn [is_tagged].
      * reflexivity.
      * change ("[CSharpier] Warning: " +:+ m)
          with ("[CSharpier] " +:+ ("Warning: " +:+ m)).
        now rewrite startswith_append.
Qed.

(** X6: the hook writes to standard output only to report success: a line
    on standard output means the formatter was launched on the extracted
    path and exited with code 0, and the line is
    ["[CSharpier] Formatted: <path>"]; every warning goes to the error
    stream. *)
Theorem stdout_only_on_success (E : env) (line : string) :
  In (Stdout line) (events E) ->
  exists data p out err,
    stdin E = Parsed data /\ file_path_of data = Return (JStr p) /\
    subprocess_run E ["dotnet"; "csharpier"; p] = Completed 0 out err /\
    line = "[CSharpier] Formatted: " +:+ p.
Proof.
  intros Hin.
  destruct (hook_cases E)
    as [H | [[text H] | (data & p & b & m & H1 & H2 & _ & _ & _ & Hrun & H)]];
    rewrite H in Hin.
  - destruct Hin.
  - destruct Hin as [Hin|[]]. discriminate.
  - destruct Hin as [Hin|[Hin|[]]]; [discriminate|].
    destruct b.
    + inversion Hin; subst. clear Hin.
      destruct (subprocess_run E (formatter_argv p)) as [rc out err|e] eqn:Hs.
      * rewrite (run_csharpier_completed E p rc out err [] Hs) in Hrun.
        cbn [fst] in Hrun.
        destruct (rc =? 0) eqn:Hrc.
        -- apply Z.eqb_eq in Hrc. subst rc. inversion Hrun; subst.
           exists data, p, out, err. auto.
        -- destruct (_ && _); discriminate.
      * rewrite (run_csharpier_failed E p e [] Hs) in Hrun. discriminate.
    + destruct (contains "not installed" (lower m)); discriminate.
Qed.

Lemma stdout_only_on_success_witness :
  exists data p out err,
    stdin (launching_env (Parsed (edit_event "Foo.cs")) (Completed 0 "" ""))
    = Parsed data /\
    file_path_of data = Return (JStr p) /\
    subprocess_run
      (launching_env (Parsed (edit_event "Foo.cs")) (Completed 0 "" ""))
      ["dotnet"; "csharpier"; p] = Completed 0 out err /\
    "[CSharpier] Formatted: Foo.cs" = "[CSharpier] Formatted: " +:+ p.
Proof.
  apply (stdout_only_on_success
           (launching_env (Parsed (edit_event "Foo.cs")) (Completed 0 "" ""))
           "[CSharpier] Formatted: Foo.cs").
  vm_compute. right. left. reflexivity.
Defined.

(** X7: after a nonzero exit code, the hook prints the install hint, and
    not the text of the failure, whenever the lower-cased stderr contains
    ["csharpier"] and ["not found"], and also whenever it contains
    ["not installed"]: [main] looks for ["not installed"] in any failure
    message. *)
Theorem install_hint_replaces_message
        (E : env) (data : json) (p : string) (rc : Z) (out err : string) :
  stdin E = Parsed data ->
  file_path_of data = Return (JStr p) ->
  endswith p ".cs" = true ->
  path_exists E p = true ->
  check_csharpier_installed E = true ->
  subprocess_run E ["dotnet"; "csharpier"; p] = Completed rc out err ->
  rc <> 0 ->
  (contains "csharpier" (lower err) = true /\
   contains "not found" (lower err) = true) \/
  contains "not installed" (lower err) = true ->
  events E = [Subprocess ["dotnet"; "csharpier"; p]; Stderr install_hint].
Proof.
  intros Hin Hp Hext Hex Hprobe Hrun Hrc Hwhy. unfold events.
  apply Z.eqb_neq in Hrc.
  pose proof (run_csharpier_completed E p rc out err [] Hrun) as Heq.
  rewrite Hrc in Heq.
  rewrite (contains_lower_strip "csharpier" err solid_csharpier) in Heq.
  rewrite (contains_lower_strip "not found" err solid_not_found) in Heq.
  destruct (contains "csharpier" (lower err) && contains "not found" (lower err))
    eqn:Hboth.
  - rewrite (main_launched E data p false "CSharpier not installed"
               Hin Hp Hext Hex Hprobe);
      [reflexivity | now rewrite Heq].
  - assert (Hni : contains "not installed" (lower err) = true).
    { destruct Hwhy as [[H1 H2]|H]; [|exact H].
      rewrite H1, H2 in Hboth. discriminate. }
    assert (Hs : contains "not installed" (lower (strip err)) = true)
      by now rewrite (contains_lower_strip _ err solid_not_installed).
    assert (Hne : truthy (strip err) = true).
    { destruct (strip err); [discriminate | reflexivity]. }
    rewrite (main_launched E data p false
               ("Format failed: " +:+ str_or (strip err) out)
               Hin Hp Hext Hex Hprobe);
      [|now rewrite Heq].
    unfold str_or. rewrite Hne, lower_append.
    now rewrite (contains_append_r "not installed" _ _ Hs).
Qed.

Lemma install_hint_replaces_message_witness :
  events (launching_env (Parsed (edit_event "Foo.cs"))
            (Completed 1 "" "error: tool is Not Installed"))
  = [Subprocess ["dotnet"; "csharpier"; "Foo.cs"]; Stderr install_hint].
Proof.
  apply (install_hint_replaces_message
           (launching_env (Parsed (edit_event "Foo.cs"))
              (Completed 1 "" "error: tool is Not Installed"))
           (edit_event "Foo.cs") "Foo.cs" 1 "" "error: tool is Not Installed");
    try reflexivity; [lia | right; reflexivity].
Defined.

End HookSpec.

(* ===================================================================== *)
(** * Properties of the scaffolder                                        *)
(* ===================================================================== *)

Module ScaffoldSpec.
Import Py Scaffold PyFacts.
Local Open Scope py_scope.

(** ** Computations that leave the file system alone *)

Lemma writes_app (l1 l2 : list event) : writes (l1 ++ l2) = writes l1 ++ writes l2.
Proof. apply List.filter_app. Qed.

Lemma preserves_ret {A} (a : A) : preserves (ret a).
Proof. intros w. split; reflexivity. Qed.

Lemma preserves_lift {A} (o : outcome A) : preserves (lift o).
Proof. intros w. split; reflexivity. Qed.

Lemma preserves_print (line : string) : preserves (print line).
Proof.
  intros w. split; [reflexivity|].
  cbn. rewrite writes_app. cbn. apply app_nil_r.
Qed.

Lemma preserves_input (prompt : string) : preserves (input prompt).
Proof.
  intros w. unfold input.
  destruct (keyboard w); (split; [reflexivity|]);
    cbn; rewrite writes_app; cbn; apply app_nil_r.
Qed.

Lemma preserves_bind {A B} (m : M world A) (k : A -> M world B) :
  preserves m -> (forall a, preserves (k a)) -> preserves (bind m k).
Proof.
  intros Hm Hk w. unfold bind. specialize (Hm w).
  destruct (m w) as [[a|r] w1]; cbn in Hm.
  - destruct (Hk a w1) as [H1 H2]. destruct Hm as [H3 H4].
    split; congruence.
  - exact Hm.
Qed.

Lemma rounds_writes {A} (prompt : string) (body : string -> verdict A)
      (lines : list string) :
  writes (fst (fst (rounds prompt body lines))) = [].
Proof.
  induction lines as [|line rest IH]; cbn; [reflexivity|].
  destruct (body line); [|reflexivity].
  destruct (rounds prompt body rest) as [[evs rest'] r]. exact IH.
Qed.

Lemma preserves_while_input {A} (prompt : string)
      (body : filesystem -> string -> verdict A) :
  preserves (while_input prompt body).
Proof.
  intros w. unfold while_input.
  pose proof (rounds_writes prompt (body (fs w)) (keyboard w)) as H.
  destruct (rounds prompt (body (fs w)) (keyboard w)) as [[evs rest] r].
  cbn [fst] in H. cbn [snd log fs].
  split; [reflexivity|]. rewrite writes_app, H. apply app_nil_r.
Qed.

Create HintDb frame.
#[local] Hint Resolve preserves_ret preserves_lift preserves_print
  preserves_input preserves_while_input : frame.

Ltac frame := repeat (apply preserves_bind; [|intros ?]); auto with frame.

Lemma preserves_print_summary (info : plugin_info) :
  preserves (print_summary info).
Proof. unfold print_summary. frame. Qed.

Lemma preserves_get_user_input : preserves get_user_input.
Proof. unfold get_user_input. frame. Qed.

Lemma preserves_gather : preserves gather.
Proof.
  unfold gather. frame.
Qed.

Lemma preserves_validate_environment : preserves validate_environment.
Proof.
  intros w. unfold validate_environment.
  destruct (template_dir (fs w)).
  - destruct (marketplace_file (fs w)); [apply preserves_ret|].
    apply (preserves_bind (print _) (fun _ => ret false)); auto with frame.
  - apply (preserves_bind (print _) (fun _ => ret false)); auto with frame.
Qed.

(** ** The prompt loops *)

(** A loop that leaves has gone round once per line turned down, and leaves
    on the first line its body accepts. *)
Lemma rounds_leave {A} (prompt : string) (body : string -> verdict A)
      (lines : list string) (evs : list event) (rest : list string) (a : A) :
  rounds prompt body lines = (evs, rest, Return a) ->
  exists bad line,
    lines = bad ++ line :: rest /\
    Forall (fun l => exists c, body l = Again c) bad /\
    body line = Leave a.
Proof.
  revert evs. induction lines as [|l ls IH]; intros evs H; cbn in H.
  - discriminate.
  - destruct (body l) as [c|b] eqn:Hb.
    + destruct (rounds prompt body ls) as [[evs' rest'] r] eqn:Hr.
      inversion H; subst.
      destruct (IH _ eq_refl) as (bad & line & -> & Hbad & Hline).
      exists (l :: bad), line. repeat split; eauto.
    + inversion H; subst. exists [], l. repeat split; auto.
Qed.

(** Conversely the loop does leave as soon as a line is accepted. *)
Lemma rounds_reach {A} (prompt : string) (body : string -> verdict A)
      (bad : list string) (line : string) (rest : list string) (a : A) :
  Forall (fun l => exists c, body l = Again c) bad ->
  body line = Leave a ->
  exists evs, rounds prompt body (bad ++ line :: rest) = (evs, rest, Return a).
Proof.
  intros Hbad Hline. induction Hbad as [|l bad [c Hc] _ [evs IH]]; cbn.
  - rewrite Hline. eauto.
  - rewrite Hc, IH. eauto.
Qed.

(** The only way out of a loop besides leaving is the end of input. *)
Lemma rounds_raise {A} (prompt : string) (body : string -> verdict A)
      (lines : list string) (evs : list event) (rest : list string)
      (r : raised) :
  rounds prompt body lines = (evs, rest, Raise r) ->
  r = error EOFError "EOF when reading a line" /\
  Forall (fun l => exists c, body l = Again c) lines.
Proof.
  revert evs. induction lines as [|l ls IH]; intros evs H; cbn in H.
  - inversion H. split; [reflexivity | constructor].
  - destruct (body l) as [c|b] eqn:Hb; [|discriminate].
    destruct (rounds prompt body ls) as [[evs' rest'] r'] eqn:Hr.
    inversion H; subst.
    destruct (IH _ eq_refl) as [-> Hall]. split; eauto.
Qed.

(** What the name loop turns down, and what it lets through. *)
Lemma check_name_again (f : filesystem) (line : string) :
  turned_down f line <->
  strip line = EmptyString \/ contains " " (strip line) = true \/
  exists_in_root f (strip line) = true.
Proof.
  unfold turned_down, check_name.
  destruct (strip line) as [|c s] eqn:Hs; cbn [truthy negb].
  - split; eauto.
  - destruct (contains " " (String c s)) eqn:Hc.
    + split; eauto.
    + destruct (exists_in_root f (String c s)) eqn:He.
      * split; eauto.
      * split; [intros [? ?]; discriminate|].
        intros [?|[?|?]]; discriminate.
Qed.

Lemma check_name_leave (f : filesystem) (line name : string) :
  check_name f line = Leave name ->
  name = strip line /\ name <> EmptyString /\
  contains " " name = false /\ exists_in_root f name = false.
Proof.
  unfold check_name.
  destruct (strip line) as [|c s] eqn:Hs; cbn [truthy negb]; [discriminate|].
  destruct (contains " " (String c s)) eqn:Hc; [discriminate|].
  destruct (exists_in_root f (String c s)) eqn:He; [discriminate|].
  intros H. inversion H; subst. repeat split; auto; discriminate.
Qed.

(** The first loop of [get_user_input] decides the name. *)
Lemma get_user_input_name (w w' : world) (info : plugin_info) :
  get_user_input w = (Return info, w') ->
  exists evs rest,
    rounds "Plugin name (kebab-case, e.g., my-plugin): "
           (check_name (fs w)) (keyboard w)
    = (evs, rest, Return (name info)).
Proof.
  unfold get_user_input, bind, print, emit, while_input, input, ret.
  cbn [fs keyboard log].
  destruct (rounds _ (check_name (fs w)) (keyboard w)) as [[e1 k1] [n|r]];
    [|discriminate].
  cbn [fs keyboard log].
  destruct (rounds "Description: " _ k1) as [[e2 k2] [d|r]]; [|discriminate].
  cbn [fs keyboard log].
  destruct (rounds "Author name: " _ k2) as [[e3 k3] [a|r]]; [|discriminate].
  cbn [fs keyboard log].
  destruct k3 as [|line k4]; [discriminate|].
  intros H. inversion H; subst. cbn. eauto.
Qed.

(** C5 (as the code has it): a name returned by [get_user_input] is the
    stripped text of the first entered line that is non-empty after
    stripping, holds no space character and names nothing that exists at the
    destination root; every line before it was turned down, and a line
    violating one of the three conditions is always turned down. *)
Theorem returned_name_is_valid (w w' : world) (info : plugin_info) :
  get_user_input w = (Return info, w') ->
  (name info <> EmptyString /\
   contains " " (name info) = false /\
   exists_in_root (fs w) (name info) = false) /\
  (exists rejected line rest,
     keyboard w = rejected ++ line :: rest /\
     Forall (turned_down (fs w)) rejected /\
     name info = strip line) /\
  (forall line,
     strip line = EmptyString \/ contains " " (strip line) = true \/
     exists_in_root (fs w) (strip line) = true ->
     turned_down (fs w) line).
Proof.
  intros H. destruct (get_user_input_name w w' info H) as (evs & rest & Hr).
  destruct (rounds_leave _ _ _ _ _ _ Hr) as (bad & line & Hk & Hbad & Hline).
  destruct (check_name_leave _ _ _ Hline) as (Hn & Hne & Hsp & Hex).
  split; [auto|]. split.
  - exists bad, line, rest. auto.
  - intros line'. apply check_name_again.
Qed.

Lemma returned_name_is_valid_witness :
  let w := session sample_fs ["csharp-plugin"; "my plugin"; " my-plugin ";
                              "Test plugin"; "Alice"; ""] in
  fst (get_user_input w)
  = Return (Info "my-plugin" "Test plugin" "Alice" "1.0.0") /\
  contains " " "my-plugin" = false /\
  exists_in_root sample_fs "my-plugin" = false.
Proof.
  intros w. split; [vm_compute; reflexivity|].
  destruct (returned_name_is_valid w (snd (get_user_input w))
              (Info "my-plugin" "Test plugin" "Alice" "1.0.0"))
    as [(_ & H2 & H3) _].
  - vm_compute. reflexivity.
  - split; [exact H2 | exact H3].
Defined.

(** C5 fails as worded: a name with a tab inside is let through. *)
Lemma tab_in_name_is_accepted :
  exists info w',
    get_user_input
      (session sample_fs ["my" +:+ tab +:+ "plugin"; "Test plugin"; "Alice"; ""])
    = (Return info, w') /\
    name info = "my" +:+ tab +:+ "plugin" /\
    has_whitespace (name info) = true.
Proof. eexists _, _. split; [vm_compute; reflexivity|]. split; reflexivity. Qed.

(** ** The control flow of [run] *)

Lemma print_summary_returns (info : plugin_info) (w : world) :
  fst (print_summary info w) = Return tt.
Proof. reflexivity. Qed.

Lemma print_success_message_returns (info : plugin_info) (w : world) :
  fst (print_success_message info w) = Return tt.
Proof. reflexivity. Qed.

Lemma run_eq (w : world) :
  run w =
  match validate_environment w with
  | (Return valid, w0) =>
      if negb valid then (Return 1, w0) else
      match gather w0 with
      | (Return (info, confirm), wc) =>
          if String.eqb confirm "n" then
            (Return 0, snd (print (nl +:+ "❌ Plugin creation cancelled") wc))
          else
            match create_plugin_directory info wc with
            | (Return None, wd) => (Return 1, wd)
            | (Return (Some target), wd) =>
                match update_plugin_json target info wd with
                | (Return updated, wu) =>
                    if negb updated then
                      (Return 1,
                       snd (print (nl +:+ "⚠️  Warning: plugin.json update failed, but directory was created") wu))
                    else
                      match register_to_marketplace info wu with
                      | (Return _, wr) =>
                          (Return 0, snd (print_success_message info wr))
                      | (Raise r, wr) => (Raise r, wr)
                      end
                | (Raise r, wu) => (Raise r, wu)
                end
            | (Raise r, wd) => (Raise r, wd)
            end
      | (Raise r, wc) => (Raise r, wc)
      end
  | (Raise r, w0) => (Raise r, w0)
  end.
Proof.
  unfold run, gather, bind, ret.
  destruct (validate_environment w) as [[[]|r] w0]; cbn [negb]; try reflexivity.
  destruct (get_user_input w0) as [[info|r] w1]; try reflexivity.
  pose proof (print_summary_returns info w1) as Hs.
  destruct (print_summary info w1) as [[[]|r] w2]; [|discriminate].
  destruct (while_input _ check_yes_no w2) as [[confirm|r] wc]; try reflexivity.
  destruct (String.eqb confirm "n"); [reflexivity|].
  destruct (create_plugin_directory info wc) as [[[target|]|r] wd];
    try reflexivity.
  destruct (update_plugin_json target info wd) as [[[]|r] wu];
    cbn [negb]; try reflexivity.
Qed.

Lemma validate_environment_returns (w : world) :
  exists valid w0, validate_environment w = (Return valid, w0).
Proof.
  unfold validate_environment.
  destruct (template_dir (fs w)); [destruct (marketplace_file (fs w))|];
    eexists _, _; reflexivity.
Qed.







(** A failing registration is only advisory: with a registry file that is
    not JSON the run still ends with status 0. *)
Example run_with_broken_registry :
  let f := {| template_dir := Some sample_template;
              marketplace_file := Some (File (OtherText "not json"));
              project_root := ∅ |} in
  let w := session f ["p"; "d"; "a"; ""; "y"; "y"] in
  fst (run w) = Return 0 /\
  writes (log (snd (run w))) = [CopiedTree "p"; Wrote (PluginJson "p")] /\
  marketplace_file (fs (snd (run w))) = Some (File (OtherText "not json")).
Proof. repeat split; vm_compute; reflexivity. Qed.

(** C9: when the user answers no at the confirmation prompt, [run] returns
    0, the file system is what it was, and nothing was copied or written. *)
Theorem declined_leaves_files_alone
        (w wc : world) (info : plugin_info) :
  answered w "n" info wc ->
  exists w',
    run w = (Return 0, w') /\
    fs w' = fs w /\
    writes (log w') = writes (log w).
Proof.
  intros (w0 & Hv & Hg).
  rewrite run_eq, Hv, Hg. cbn [negb].
  change (String.eqb "n" "n") with true. cbv iota.
  eexists. split; [reflexivity|].
  destruct (preserves_validate_environment w) as [Hf0 Hw0].
  destruct (preserves_gather w0) as [Hf1 Hw1].
  destruct (preserves_print (nl +:+ "❌ Plugin creation cancelled") wc)
    as [Hf2 Hw2].
  rewrite Hv in Hf0, Hw0. rewrite Hg in Hf1, Hw1. cbn [snd] in *.
  split; congruence.
Qed.

Lemma declined_leaves_files_alone_witness :
  let w := session sample_fs ["my-plugin"; "Test plugin"; "Alice"; ""; "N"] in
  exists w', run w = (Return 0, w') /\ fs w' = sample_fs /\
             writes (log w') = [].
Proof.
  intros w.
  apply (declined_leaves_files_alone w (snd (gather w))
           (Info "my-plugin" "Test plugin" "Alice" "1.0.0")).
  exists w. split; vm_compute; reflexivity.
Defined.

(** ** The registry *)

Lemma getitem_name (p v : json) :
  getitem p "name" = Return v <->
  exists fields, p = JObj fields /\ dict_get "name" fields = Some v.
Proof.
  split.
  - destruct p; cbn; try discriminate.
    destruct (dict_get "name" fields) eqn:E; [|discriminate].
    intros H. inversion H; subst. eauto.
  - intros (fields & -> & H). cbn. now rewrite H.
Qed.

Lemma names_of_records (items : list json) :
  Forall is_record items -> exists names, names_of items = Return names.
Proof.
  induction 1 as [|p items (fields & v & -> & Hv) _ [names IH]]; cbn.
  - eauto.
  - rewrite Hv, IH. eauto.
Qed.

Lemma str_eq_value_true (n : string) (v : json) :
  str_eq_value n v = true <-> v = JStr n.
Proof.
  destruct v; cbn; try (split; discriminate).
  destruct (String.eqb_spec n s); split; congruence.
Qed.

(** The membership test of line 145 finds a name exactly when some record
    bears it. *)
Lemma str_in_names (n : string) (items names : list json) :
  names_of items = Return names ->
  str_in n names = true <-> Exists (named n) items.
Proof.
  revert names. induction items as [|p items IH]; intros names; cbn.
  - intros H. inversion H; subst. cbn. split; [discriminate|].
    intros H'. inversion H'.
  - destruct (getitem p "name") as [v|r] eqn:Hp; [|discriminate].
    destruct (names_of items) as [ns|r]; [|discriminate].
    intros H. inversion H; subst. cbn.
    apply getitem_name in Hp. destruct Hp as (fields & -> & Hv).
    specialize (IH ns eq_refl).
    rewrite orb_true_iff, str_eq_value_true, IH. split.
    + intros [->|Hex]; [left; exists fields; auto | right; exact Hex].
    + intros Hex. inversion Hex as [? ? Hn|? ? Hn]; subst; [left|right; auto].
      destruct Hn as (fields' & Heq & Hv'). inversion Heq; subst. congruence.
Qed.

Lemma getitem_raise (p : json) (k : string) (r : raised) :
  getitem p k = Raise r -> exists e, r = Exception e.
Proof.
  destruct p; cbn; try (intros H; inversion H; eauto; fail).
  destruct (dict_get k fields); intros H; inversion H; eauto.
Qed.

Lemma names_of_raise (items : list json) (r : raised) :
  names_of items = Raise r -> exists e, r = Exception e.
Proof.
  induction items as [|p items IH]; cbn; [discriminate|].
  destruct (getitem p "name") as [v|r'] eqn:Hp.
  - destruct (names_of items) as [ns|r'']; [discriminate|].
    intros H. inversion H; subst. now apply IH.
  - intros H. inversion H; subst. eapply getitem_raise; eauto.
Qed.




(** ** One successful pass, step by step *)

Lemma entry_get_set_same (k : string) (n : node) (es : list (string * node)) :
  entry_get k (entry_set k n es) = Some n.
Proof.
  induction es as [|[k' n'] es IH]; cbn.
  - now rewrite String.eqb_refl.
  - destruct (String.eqb k k') eqn:E; cbn; rewrite ?String.eqb_refl, ?E; auto.
Qed.

(** Rewriting a file that can be read succeeds, and reads back. *)
Lemma put_file_ok (path : list string) (c c0 : content) (n : node) :
  node_at path n = inr (File c0) ->
  exists n', put_file path c n = inr n' /\ node_at path n' = inr (File c).
Proof.
  revert n. induction path as [|p path IH]; intros n; cbn.
  - intros H. inversion H; subst. eauto.
  - destruct n as [|es]; [discriminate|].
    destruct (entry_get p es) as [child|] eqn:E; [|discriminate].
    intros H. destruct (IH child H) as (child' & -> & Hread).
    eexists. split; [reflexivity|]. cbn.
    now rewrite entry_get_set_same.
Qed.

Lemma rounds_first {A} (prompt : string) (body : string -> verdict A)
      (line : string) (rest : list string) (a : A) :
  body line = Leave a ->
  rounds prompt body (line :: rest) = ([Prompt prompt], rest, Return a).
Proof. intros H. cbn. now rewrite H. Qed.

Lemma validate_environment_ok (w : world) (t m : node) :
  template_dir (fs w) = Some t -> marketplace_file (fs w) = Some m ->
  validate_environment w = (Return true, w).
Proof. intros Ht Hm. unfold validate_environment. now rewrite Ht, Hm. Qed.

Lemma gather_ok (w : world) (l1 l2 l3 l4 l5 : string) (rest : list string)
      (n d a c : string) :
  keyboard w = l1 :: l2 :: l3 :: l4 :: l5 :: rest ->
  check_name (fs w) l1 = Leave n ->
  check_filled "❌ Description cannot be empty!" (fs w) l2 = Leave d ->
  check_filled "❌ Author name cannot be empty!" (fs w) l3 = Leave a ->
  check_yes_no (fs w) l5 = Leave c ->
  exists wc,
    gather w
    = (Return (Info n d a (if negb (truthy (strip l4)) then "1.0.0"
                           else strip l4), c), wc) /\
    fs wc = fs w /\ keyboard wc = rest.
Proof.
  intros Hk H1 H2 H3 H5.
  unfold gather, get_user_input, bind, print_summary, bind, print, emit,
    while_input, input, ret.
  cbn [fs keyboard log]. rewrite Hk.
  rewrite (rounds_first _ _ _ _ _ H1). cbn [fs keyboard log].
  rewrite (rounds_first _ _ _ _ _ H2). cbn [fs keyboard log].
  rewrite (rounds_first _ _ _ _ _ H3). cbn [fs keyboard log].
  rewrite (rounds_first _ _ _ _ _ H5). cbn [fs keyboard log].
  eexists. split; [reflexivity|]. split; reflexivity.
Qed.

Lemma create_plugin_directory_ok (w : world) (info : plugin_info)
      (tree : list (string * node)) :
  template_dir (fs w) = Some (Dir tree) ->
  project_root (fs w) !! name info = None ->
  exists wd,
    create_plugin_directory info w = (Return (Some (name info)), wd) /\
    fs wd = {| template_dir := template_dir (fs w);
               marketplace_file := marketplace_file (fs w);
               project_root := <[name info := Dir tree]> (project_root (fs w)) |} /\
    keyboard wd = keyboard w.
Proof.
  intros Ht Hfree.
  unfold create_plugin_directory, bind, try_except, bind, print, emit,
    copytree, ret.
  cbn [fs keyboard log]. rewrite Ht, Hfree.
  eexists. split; [reflexivity|]. split; reflexivity.
Qed.

Lemma update_plugin_json_ok (w : world) (target : string)
      (info : plugin_info) (n : node) (manifest authored : dict) :
  project_root (fs w) !! target = Some n ->
  node_at manifest_path n = inr (File (JsonText (JObj manifest))) ->
  dict_get "author" manifest = Some (JObj authored) ->
  exists wu n',
    let manifest' :=
      dict_set "author" (JObj (dict_set "name" (JStr (author info)) authored))
        (dict_set "version" (JStr (version info))
           (dict_set "description" (JStr (description info))
              (dict_set "name" (JStr (name info)) manifest))) in
    update_plugin_json target info w = (Return true, wu) /\
    put_file manifest_path (JsonText (JObj manifest')) n = inr n' /\
    node_at manifest_path n' = inr (File (JsonText (JObj manifest'))) /\
    fs wu = {| template_dir := template_dir (fs w);
               marketplace_file := marketplace_file (fs w);
               project_root := <[target := n']> (project_root (fs w)) |} /\
    keyboard wu = keyboard w.
Proof.
  intros Hn Hread Hauthor.
  set (m3 := dict_set "version" (JStr (version info))
               (dict_set "description" (JStr (description info))
                  (dict_set "name" (JStr (name info)) manifest))).
  assert (Ha3 : dict_get "author" m3 = Some (JObj authored)).
  { unfold m3. rewrite !dict_get_set_other by discriminate. exact Hauthor. }
  destruct (put_file_ok manifest_path
              (JsonText (JObj (dict_set "author"
                 (JObj (dict_set "name" (JStr (author info)) authored)) m3)))
              _ n Hread) as (n' & Hput & Hback).
  exists {| fs := {| template_dir := template_dir (fs w);
                     marketplace_file := marketplace_file (fs w);
                     project_root := <[target := n']> (project_root (fs w)) |};
            keyboard := keyboard w;
            log := ((log w ++ [Print (nl +:+ "📝 Updating plugin.json")])
                    ++ [Wrote (PluginJson target)])
                   ++ [Print "✅ plugin.json updated successfully"] |}, n'.
  cbv zeta. fold m3.
  split; [|split; [exact Hput | split; [exact Hback | split; reflexivity]]].
  unfold update_plugin_json, bind, try_except, bind, print, emit, load_json,
    dump_json, lift, find, store, ret.
  cbn [fs keyboard log]. rewrite Hn, Hread.
  cbn [setitem]. fold m3.
  unfold setitem_nested. cbn [getitem]. rewrite Ha3. cbn [setitem].
  cbn [fs keyboard log]. rewrite Hn, Hput. reflexivity.
Qed.

Lemma register_to_marketplace_new
      (w : world) (info : plugin_info) (registry : dict)
      (items : list json) (evs : list event) (rest : list string) :
  marketplace_file (fs w) = Some (File (JsonText (JObj registry))) ->
  plugins_of registry = JArr items ->
  Forall is_record items ->
  ~ Exists (named (name info)) items ->
  rounds "Register this plugin to marketplace.json? (y/n): "
         (check_yes_no (fs w)) (keyboard w) = (evs, rest, Return "y") ->
  exists wr registry',
    register_to_marketplace info w = (Return true, wr) /\
    fs wr = {| template_dir := template_dir (fs w);
               marketplace_file := Some (File (JsonText (JObj registry')));
               project_root := project_root (fs w) |} /\
    plugins_of registry' = JArr (items ++ [new_plugin_entry info]) /\
    (forall k, k <> "plugins" -> dict_get k registry' = dict_get k registry) /\
    keyboard wr = rest.
Proof.
  intros Hm Hp Hrec Hnew Hr.
  destruct (names_of_records items Hrec) as [names Hn].
  assert (Hin : str_in (name info) names = false).
  { destruct (str_in (name info) names) eqn:E; [|reflexivity].
    destruct Hnew. now apply (str_in_names (name info) items names Hn). }
  unfold register_to_marketplace, bind, print, emit, while_input.
  cbn [fs keyboard log]. rewrite Hr.
  change (String.eqb "y" "n") with false. cbv iota.
  unfold try_except, bind, load_json, dump_json, find, store, lift.
  cbn [fs keyboard log]. rewrite Hm. cbn [get_method].
  fold (plugins_of registry). rewrite Hp. cbn [iterate].
  rewrite Hn, Hin. unfold dict_has. unfold plugins_of in Hp.
  destruct (dict_get "plugins" registry) as [v|] eqn:E; cbn [negb].
  - subst v. unfold append_at. cbn [getitem]. rewrite E. cbn [setitem].
    cbn [fs keyboard log]. rewrite Hm. unfold print, emit, ret.
    cbn [fs keyboard log].
    eexists _, _. split; [reflexivity|]. cbn [fs keyboard].
    split; [reflexivity|]. split; [|split; [|reflexivity]].
    + unfold plugins_of. now rewrite dict_get_set_same.
    + intros k Hk. apply dict_get_set_other. congruence.
  - inversion Hp; subst items. cbn [setitem].
    unfold append_at. cbn [getitem]. rewrite dict_get_set_same.
    cbn [setitem]. cbn [fs keyboard log]. rewrite Hm.
    unfold print, emit, ret. cbn [fs keyboard log].
    eexists _, _. split; [reflexivity|]. cbn [fs keyboard].
    split; [reflexivity|]. split; [|split; [|reflexivity]].
    + unfold plugins_of. now rewrite dict_get_set_same.
    + intros k Hk. rewrite !dict_get_set_other by congruence. reflexivity.
Qed.

(** C7: with an environment that validates, a template whose manifest is a
    mapping with a nested [author] mapping, a registry of records none of
    which is named [my-plugin], and no [my-plugin] at the destination root,
    the session  my-plugin / Test plugin / Alice / (blank) / y / y  returns
    0; [my-plugin] is then the template tree with only its manifest
    rewritten, the manifest's [name], [description], [version] and
    [author.name] are [my-plugin], [Test plugin], [1.0.0] and [Alice], and
    the registry's plugins list is the former list followed by the record
    [{"name": "my-plugin", "source": "./my-plugin",
      "description": "Test plugin"}]. *)
Theorem scaffold_my_plugin
        (f : filesystem) (tree : list (string * node))
        (manifest authored registry : dict) (items : list json)
        (rest : list string) :
  template_dir f = Some (Dir tree) ->
  node_at manifest_path (Dir tree) = inr (File (JsonText (JObj manifest))) ->
  dict_get "author" manifest = Some (JObj authored) ->
  marketplace_file f = Some (File (JsonText (JObj registry))) ->
  plugins_of registry = JArr items ->
  Forall is_record items ->
  ~ Exists (named "my-plugin") items ->
  project_root f !! "my-plugin" = None ->
  exists w' copy manifest' authored' registry',
    run (session f ("my-plugin" :: "Test plugin" :: "Alice" :: ""
                    :: "y" :: "y" :: rest))
    = (Return 0, w') /\
    project_root (fs w') !! "my-plugin" = Some copy /\
    put_file manifest_path (JsonText (JObj manifest')) (Dir tree) = inr copy /\
    node_at manifest_path copy = inr (File (JsonText (JObj manifest'))) /\
    dict_get "name" manifest' = Some (JStr "my-plugin") /\
    dict_get "description" manifest' = Some (JStr "Test plugin") /\
    dict_get "version" manifest' = Some (JStr "1.0.0") /\
    dict_get "author" manifest' = Some (JObj authored') /\
    dict_get "name" authored' = Some (JStr "Alice") /\
    marketplace_file (fs w') = Some (File (JsonText (JObj registry'))) /\
    plugins_of registry'
    = JArr (items ++ [JObj [ ("name", JStr "my-plugin");
                             ("source", JStr "./my-plugin");
                             ("description", JStr "Test plugin") ]]) /\
    template_dir (fs w') = template_dir f /\
    (forall other, other <> "my-plugin" ->
       project_root (fs w') !! other = project_root f !! other).
Proof.
  intros Ht Hread Hauthor Hm Hp Hrec Hnew Hfree.
  set (info := Info "my-plugin" "Test plugin" "Alice" "1.0.0").
  set (w := session f ("my-plugin" :: "Test plugin" :: "Alice" :: ""
                       :: "y" :: "y" :: rest)).
  assert (Hname : check_name (fs w) "my-plugin" = Leave "my-plugin").
  { unfold check_name.
    change (strip "my-plugin") with "my-plugin".
    change (contains " " "my-plugin") with false.
    cbn [truthy negb]. unfold exists_in_root. cbn [w session fs].
    now rewrite Hfree. }
  destruct (gather_ok w "my-plugin" "Test plugin" "Alice" "" "y" ("y" :: rest)
              "my-plugin" "Test plugin" "Alice" "y")
    as (wc & Hg & Hfc & Hkc); try reflexivity; [exact Hname|].
  change (if negb (truthy (strip "")) then "1.0.0" else strip "")
    with "1.0.0" in Hg. fold info in Hg.
  cbn [w session fs] in Hfc.
  destruct (create_plugin_directory_ok wc info tree)
    as (wd & Hc & Hfd & Hkd).
  { now rewrite Hfc. }
  { now rewrite Hfc. }
  rewrite Hfc in Hfd. cbn [name info] in Hfd.
  destruct (update_plugin_json_ok wd "my-plugin" info (Dir tree)
              manifest authored)
    as (wu & copy & Hu & Hput & Hback & Hfu & Hku); [|exact Hread|exact Hauthor|].
  { rewrite Hfd. cbn [project_root]. apply lookup_insert_eq. }
  cbv zeta in Hu, Hput, Hback, Hfu, Hku.
  rewrite Hfd in Hfu. cbn [template_dir marketplace_file project_root] in Hfu.
  destruct (register_to_marketplace_new wu info registry items
              [Prompt "Register this plugin to marketplace.json? (y/n): "]
              rest)
    as (wr & registry' & Hreg & Hfr & Hplug & _ & _);
    [ now rewrite Hfu | exact Hp | exact Hrec | exact Hnew | | ].
  { rewrite Hku, Hkd, Hkc. apply rounds_first. reflexivity. }
  rewrite Hfu in Hfr. cbn [template_dir marketplace_file project_root] in Hfr.
  eexists _, copy, _, _, registry'.
  split.
  { rewrite run_eq.
    rewrite (validate_environment_ok w (Dir tree)
               (File (JsonText (JObj registry)))) by assumption.
    cbn [negb]. rewrite Hg.
    change (String.eqb "y" "n") with false. cbv iota.
    cbn [name info] in Hc. rewrite Hc, Hu. cbn [negb]. rewrite Hreg.
    reflexivity. }
  assert (Hfinal : fs (snd (print_success_message info wr)) = fs wr)
    by reflexivity.
  cbn [snd]. rewrite Hfinal, Hfr. cbn [template_dir marketplace_file project_root].
  split; [apply lookup_insert_eq|].
  split; [rewrite insert_insert_eq in *; exact Hput|].
  split; [exact Hback|].
  split; [rewrite !dict_get_set_other by discriminate; apply dict_get_set_same|].
  split; [rewrite !dict_get_set_other by discriminate; apply dict_get_set_same|].
  split; [rewrite !dict_get_set_other by discriminate; apply dict_get_set_same|].
  split; [apply dict_get_set_same|].
  split; [apply dict_get_set_same|].
  split; [reflexivity|].
  split; [exact Hplug|].
  split; [reflexivity|].
  intros other Hother. rewrite !lookup_insert_ne by congruence. reflexivity.
Qed.

Lemma scaffold_my_plugin_witness :
  exists w' copy registry',
    run (session sample_fs ["my-plugin"; "Test plugin"; "Alice"; ""; "y"; "y"])
    = (Return 0, w') /\
    project_root (fs w') !! "my-plugin" = Some copy /\
    marketplace_file (fs w') = Some (File (JsonText (JObj registry'))) /\
    plugins_of registry'
    = JArr [ sample_record;
             JObj [ ("name", JStr "my-plugin");
                    ("source", JStr "./my-plugin");
                    ("description", JStr "Test plugin") ] ].
Proof.
  destruct (scaffold_my_plugin sample_fs
              [ (".claude-plugin",
                 Dir [("plugin.json", File (JsonText sample_manifest))]);
                ("README.md", File (OtherText "# Plugin template")) ]
              [ ("name", JStr "plugin-template");
                ("description", JStr "A template");
                ("version", JStr "0.1.0");
                ("author", JObj [("name", JStr "Your Name"); ("url", JStr "")]);
                ("keywords", JArr []) ]
              [("name", JStr "Your Name"); ("url", JStr "")]
              [("name", JStr "marketplace"); ("plugins", JArr [sample_record])]
              [sample_record] [])
    as (w' & copy & m' & a' & registry' & Hrun & Hdir & _ & _ & _ & _ & _
        & _ & _ & Hreg & Hplug & _).
  - reflexivity.
  - reflexivity.
  - reflexivity.
  - reflexivity.
  - reflexivity.
  - repeat constructor. eexists _, _. split; reflexivity.
  - intros H. inversion H as [? ? (fields & Heq & Hn)|? ? H']; subst.
    + inversion Heq; subst. discriminate.
    + inversion H'.
  - reflexivity.
  - exists w', copy, registry'. repeat split; assumption.
Defined.

(** The whole run on the sample tree, evaluated. *)
Example scaffold_my_plugin_evaluated :
  let w' := snd (run (session sample_fs
                        ["my-plugin"; "Test plugin"; "Alice"; ""; "y"; "y"])) in
  find (fs w') (PluginJson "my-plugin")
  = inr (File (JsonText (JObj
      [ ("name", JStr "my-plugin");
        ("description", JStr "Test plugin");
        ("version", JStr "1.0.0");
        ("author", JObj [("name", JStr "Alice"); ("url", JStr "")]);
        ("keywords", JArr []) ]))) /\
  writes (log w')
  = [CopiedTree "my-plugin"; Wrote (PluginJson "my-plugin"); Wrote Marketplace].
Proof. split; vm_compute; reflexivity. Qed.

(** Running the same session again finds the directory in place and asks
    for another name instead of copying over it. *)
Example second_run_asks_again :
  let w1 := snd (run (session sample_fs
                        ["my-plugin"; "Test plugin"; "Alice"; ""; "y"; "y"])) in
  turned_down (fs w1) "my-plugin" /\
  fst (run (session (fs w1)
              ["my-plugin"; "Test plugin"; "Alice"; ""; "y"; "y"]))
  = Raise (error EOFError "EOF when reading a line").
Proof.
  split.
  - eexists. vm_compute. reflexivity.
  - vm_compute. reflexivity.
Qed.

(** ** The steps of [run] that cannot raise *)

Lemma proper_setitem (v : json) (k : string) (x : json) : proper (setitem v k x).
Proof. destruct v; intros r H; inversion H; eauto. Qed.

Lemma proper_getitem (v : json) (k : string) : proper (getitem v k).
Proof. intros r H. eapply getitem_raise; eauto. Qed.

Lemma proper_get_method (v : json) (k : string) (d : json) :
  proper (get_method v k d).
Proof. destruct v; intros r H; inversion H; eauto. Qed.

Lemma proper_iterate (v : json) : proper (iterate v).
Proof. destruct v; intros r H; inversion H; eauto. Qed.

Lemma proper_names_of (items : list json) : proper (names_of items).
Proof. intros r H. eapply names_of_raise; eauto. Qed.

Lemma proper_setitem_nested (v : json) (k1 k2 : string) (x : json) :
  proper (setitem_nested v k1 k2 x).
Proof.
  unfold setitem_nested. intros r.
  destruct (getitem v k1) as [held|r1] eqn:H1.
  - destruct (setitem held k2 x) as [held'|r2] eqn:H2.
    + apply proper_setitem.
    + intros H. inversion H; subst. eapply proper_setitem; eauto.
  - intros H. inversion H; subst. eapply proper_getitem; eauto.
Qed.

Lemma proper_append_at (v : json) (k : string) (x : json) :
  proper (append_at v k x).
Proof.
  unfold append_at. intros r.
  destruct (getitem v k) as [held|r1] eqn:H1.
  - destruct held; try (intros H; inversion H; eauto; fail).
    apply proper_setitem.
  - intros H. inversion H; subst. eapply proper_getitem; eauto.
Qed.

Lemma no_exit_ret {A} (a : A) : no_exit (ret a).
Proof. intros w r w' H. inversion H. Qed.

Lemma no_exit_print (line : string) : no_exit (print line).
Proof. intros w r w' H. inversion H. Qed.

Lemma no_exit_lift {A} (o : outcome A) : proper o -> no_exit (lift o).
Proof. intros Ho w r w' H. inversion H; subst. now apply Ho. Qed.

Lemma no_exit_load_json (l : location) : no_exit (load_json l).
Proof.
  intros w r w'. unfold load_json.
  destruct (find (fs w) l) as [c|[[v|raw]|es]];
    intros H; inversion H; unfold error; eauto.
Qed.

Lemma no_exit_dump_json (l : location) (data : json) :
  no_exit (dump_json l data).
Proof.
  intros w r w'. unfold dump_json.
  destruct (store (fs w) l (JsonText data));
    intros H; inversion H; unfold error; eauto.
Qed.

Lemma no_exit_copytree (target : string) : no_exit (copytree target).
Proof.
  intros w r w'. unfold copytree.
  destruct (template_dir (fs w)) as [[c|tree]|];
    [| destruct (project_root (fs w) !! target) |];
    intros H; inversion H; unfold error; eauto.
Qed.

Lemma no_exit_bind {A B} (m : M world A) (k : A -> M world B) :
  no_exit m -> (forall a, no_exit (k a)) -> no_exit (bind m k).
Proof.
  intros Hm Hk w r w'. unfold bind.
  destruct (m w) as [[a|r1] w1] eqn:E.
  - apply Hk.
  - intros H. inversion H; subst. eapply Hm; eauto.
Qed.

Lemma total_print_ret {A} (line : string) (a : A) :
  total (print line ;;; ret a)%py.
Proof. intros w. eexists _, _. reflexivity. Qed.

(** A [try] whose single clause is [except Exception] and returns. *)
Lemma total_try_any {A} (body : M world A) (h : exception -> M world A) :
  no_exit body -> (forall e, total (h e)) ->
  total (try_except body [(AnyException, h)]).
Proof.
  intros Hb Hh w. unfold try_except.
  destruct (body w) as [[a|r] w1] eqn:E.
  - eauto.
  - destruct (Hb _ _ _ E) as [e ->]. cbn [select matches]. apply Hh.
Qed.

Create HintDb ends.
#[local] Hint Resolve no_exit_ret no_exit_print no_exit_load_json
  no_exit_dump_json no_exit_copytree proper_setitem proper_getitem
  proper_get_method proper_iterate proper_names_of proper_setitem_nested
  proper_append_at : ends.
#[local] Hint Extern 1 (no_exit (lift _)) => apply no_exit_lift : ends.

Ltac ends := repeat (apply no_exit_bind; [|intros ?]); auto with ends.

Lemma create_plugin_directory_total (info : plugin_info) :
  total (create_plugin_directory info).
Proof.
  intros w. unfold create_plugin_directory.
  unfold bind at 1. cbn [print emit].
  apply total_try_any; [ends|]. intros e. apply total_print_ret.
Qed.

Lemma update_plugin_json_total (target : string) (info : plugin_info) :
  total (update_plugin_json target info).
Proof.
  intros w. unfold update_plugin_json.
  unfold bind at 1. cbn [print emit].
  apply total_try_any; [ends|]. intros e. apply total_print_ret.
Qed.

(** Whenever [run] returns, it returns 0 or 1. *)
Lemma run_status_range (w w' : world) (s : Z) :
  run w = (Return s, w') -> s = 0 \/ s = 1.
Proof.
  rewrite run_eq.
  destruct (validate_environment w) as [[[]|r] w0]; cbn [negb];
    [| intros H; inversion H; auto | discriminate].
  destruct (gather w0) as [[[info c]|r] wc]; [|discriminate].
  destruct (String.eqb c "n"); [intros H; inversion H; auto|].
  destruct (create_plugin_directory info wc) as [[[target|]|r] wd];
    [| intros H; inversion H; auto | discriminate].
  destruct (update_plugin_json target info wd) as [[[]|r] wu]; cbn [negb];
    [| intros H; inversion H; auto | discriminate].
  destruct (register_to_marketplace info wu) as [[b|r] wr];
    [intros H; inversion H; auto | discriminate].
Qed.

(** ** Further properties of the scaffolder *)

(** X8: when the template directory or the registry file is missing, [run]
    returns 1 after printing one diagnostic: no prompt is shown, no line of
    input is consumed and the file system is not touched. *)
Theorem invalid_environment_stops_run (w : world) :
  template_dir (fs w) = None \/ marketplace_file (fs w) = None ->
  exists diagnostic,
    run w = (Return 1, {| fs := fs w; keyboard := keyboard w;
                          log := log w ++ [Print diagnostic] |}).
Proof.
  intros H. unfold run, bind, validate_environment.
  destruct (template_dir (fs w)) as [t|].
  - destruct (marketplace_file (fs w)) as [m|].
    + destruct H; discriminate.
    + eexists. reflexivity.
  - eexists. reflexivity.
Qed.

Lemma invalid_environment_stops_run_witness :
  exists diagnostic,
    run (session {| template_dir := None;
                    marketplace_file := Some (File (JsonText sample_registry));
                    project_root := ∅ |} ["my-plugin"; "d"; "a"; ""; "y"; "y"])
    = (Return 1,
       {| fs := {| template_dir := None;
                   marketplace_file := Some (File (JsonText sample_registry));
                   project_root := ∅ |};
          keyboard := ["my-plugin"; "d"; "a"; ""; "y"; "y"];
          log := [] ++ [Print diagnostic] |}).
Proof.
  apply (invalid_environment_stops_run
           (session {| template_dir := None;
                       marketplace_file := Some (File (JsonText sample_registry));
                       project_root := ∅ |}
                    ["my-plugin"; "d"; "a"; ""; "y"; "y"])).
  left. reflexivity.
Defined.

(** What [get_user_input] read, loop by loop. *)
Lemma get_user_input_inv (w w' : world) (info : plugin_info) :
  get_user_input w = (Return info, w') ->
  exists e1 k1 e2 k2 e3 k3 line,
    rounds "Plugin name (kebab-case, e.g., my-plugin): "
           (check_name (fs w)) (keyboard w)
    = (e1, k1, Return (name info)) /\
    rounds "Description: "
           (check_filled "❌ Description cannot be empty!" (fs w)) k1
    = (e2, k2, Return (description info)) /\
    rounds "Author name: "
           (check_filled "❌ Author name cannot be empty!" (fs w)) k2
    = (e3, k3, Return (author info)) /\
    k3 = line :: keyboard w' /\
    version info = (if negb (truthy (strip line)) then "1.0.0" else strip line).
Proof.
  unfold get_user_input, bind, print, emit, while_input, input, ret.
  cbn [fs keyboard log].
  destruct (rounds _ (check_name (fs w)) (keyboard w)) as [[e1 k1] [n|r]]
    eqn:R1; [|discriminate].
  cbn [fs keyboard log].
  destruct (rounds "Description: " _ k1) as [[e2 k2] [d|r]] eqn:R2;
    [|discriminate].
  cbn [fs keyboard log].
  destruct (rounds "Author name: " _ k2) as [[e3 k3] [a|r]] eqn:R3;
    [|discriminate].
  cbn [fs keyboard log].
  destruct k3 as [|line k4]; [discriminate|].
  intros H. inversion H; subst. cbn.
  exists e1, k1, e2, k2, e3, (line :: k4), line.
  repeat (split; [first [reflexivity | assumption]|]). reflexivity.
Qed.

Lemma check_filled_leave (complaint : string) (f : filesystem)
      (line text : string) :
  check_filled complaint f line = Leave text ->
  text = strip line /\ text <> EmptyString.
Proof.
  unfold check_filled. destruct (strip line) eqn:E; cbn; [discriminate|].
  intros H. inversion H. split; [reflexivity | discriminate].
Qed.

(** X9: the four fields of a descriptor returned by [get_user_input] are
    non-empty and carry no leading or trailing white space: stripping any
    of them again changes nothing. *)
Theorem descriptor_fields_are_clean (w w' : world) (info : plugin_info) :
  get_user_input w = (Return info, w') ->
  (name info <> EmptyString /\ strip (name info) = name info) /\
  (description info <> EmptyString /\
   strip (description info) = description info) /\
  (author info <> EmptyString /\ strip (author info) = author info) /\
  (version info <> EmptyString /\ strip (version info) = version info).
Proof.
  intros H.
  destruct (get_user_input_inv w w' info H)
    as (e1 & k1 & e2 & k2 & e3 & k3 & line & R1 & R2 & R3 & _ & Hv).
  destruct (rounds_leave _ _ _ _ _ _ R1) as (b1 & l1 & _ & _ & L1).
  destruct (rounds_leave _ _ _ _ _ _ R2) as (b2 & l2 & _ & _ & L2).
  destruct (rounds_leave _ _ _ _ _ _ R3) as (b3 & l3 & _ & _ & L3).
  destruct (check_name_leave _ _ _ L1) as (N1 & N2 & _).
  destruct (check_filled_leave _ _ _ _ L2) as (D1 & D2).
  destruct (check_filled_leave _ _ _ _ L3) as (A1 & A2).
  repeat split; try assumption.
  - rewrite N1. apply strip_strip.
  - rewrite D1. apply strip_strip.
  - rewrite A1. apply strip_strip.
  - rewrite Hv. destruct (strip line); cbn; discriminate.
  - rewrite Hv. destruct (strip line) eqn:E; cbn [truthy negb].
    + reflexivity.
    + rewrite <- E. apply strip_strip.
Qed.

Lemma descriptor_fields_are_clean_witness :
  let w := session sample_fs ["  my-plugin"; "   "; " Test plugin ";
                              "Alice  "; "  "] in
  fst (get_user_input w)
  = Return (Info "my-plugin" "Test plugin" "Alice" "1.0.0") /\
  strip "Test plugin" = "Test plugin".
Proof.
  intros w. split; [vm_compute; reflexivity|].
  destruct (descriptor_fields_are_clean w (snd (get_user_input w))
              (Info "my-plugin" "Test plugin" "Alice" "1.0.0"))
    as (_ & (_ & H) & _).
  - vm_compute. reflexivity.
  - exact H.
Defined.

(** X10: the version is asked once and never asked again: whatever the
    line holds, it is the last line [get_user_input] consumes, and the
    version is that line stripped, or ["1.0.0"] when nothing is left after
    stripping.  At least three lines are consumed before it. *)
Theorem version_is_asked_once (w w' : world) (info : plugin_info) :
  get_user_input w = (Return info, w') ->
  exists before line,
    keyboard w = before ++ line :: keyboard w' /\
    (3 <= length before)%nat /\
    version info = (if String.eqb (strip line) "" then "1.0.0" else strip line).
Proof.
  intros H.
  destruct (get_user_input_inv w w' info H)
    as (e1 & k1 & e2 & k2 & e3 & k3 & line & R1 & R2 & R3 & Hk & Hv).
  destruct (rounds_leave _ _ _ _ _ _ R1) as (b1 & l1 & K1 & _ & _).
  destruct (rounds_leave _ _ _ _ _ _ R2) as (b2 & l2 & K2 & _ & _).
  destruct (rounds_leave _ _ _ _ _ _ R3) as (b3 & l3 & K3 & _ & _).
  exists (b1 ++ l1 :: b2 ++ l2 :: b3 ++ [l3]), line. split; [|split].
  - rewrite K1, K2, K3, Hk.
    repeat (rewrite <- app_assoc; cbn [app]). reflexivity.
  - repeat (rewrite length_app || rewrite length_cons). cbn [length]. lia.
  - rewrite Hv. destruct (strip line); reflexivity.
Qed.

Lemma version_is_asked_once_witness :
  exists before line,
    ["x"; "d"; "a"; " 2.1 "; "n"] = before ++ line :: ["n"] /\
    (3 <= length before)%nat /\
    "2.1" = (if String.eqb (strip line) "" then "1.0.0" else strip line).
Proof.
  apply (version_is_asked_once
           (session sample_fs ["x"; "d"; "a"; " 2.1 "; "n"])
           {| fs := sample_fs; keyboard := ["n"];
              log := log (snd (get_user_input
                                 (session sample_fs
                                    ["x"; "d"; "a"; " 2.1 "; "n"]))) |}
           (Info "x" "d" "a" "2.1")).
  vm_compute. reflexivity.
Defined.

(** ** What each step may change *)

Lemma create_plugin_directory_cases (info : plugin_info) (w : world) :
  (exists tree w',
     template_dir (fs w) = Some (Dir tree) /\
     project_root (fs w) !! name info = None /\
     create_plugin_directory info w = (Return (Some (name info)), w') /\
     fs w' = {| template_dir := template_dir (fs w);
                marketplace_file := marketplace_file (fs w);
                project_root :=
                  <[name info := Dir tree]> (project_root (fs w)) |} /\
     writes (log w') = writes (log w) ++ [CopiedTree (name info)]) \/
  (exists w',
     (forall tree, template_dir (fs w) = Some (Dir tree) ->
                   project_root (fs w) !! name info <> None) /\
     create_plugin_directory info w = (Return None, w') /\
     fs w' = fs w /\ writes (log w') = writes (log w)).
Proof.
  unfold create_plugin_directory, bind, try_except, bind, print, emit,
    copytree, ret.
  cbn [fs keyboard log].
  destruct (template_dir (fs w)) as [[c|tree]|] eqn:Ht.
  - right. eexists. split; [discriminate|]. split; [reflexivity|].
    cbn [fs log]. split; [reflexivity|].
    rewrite !writes_app. cbn. now rewrite !app_nil_r.
  - destruct (project_root (fs w) !! name info) as [n|] eqn:Hn.
    + right. eexists. split; [intros ? _; discriminate|].
      split; [reflexivity|]. cbn [fs log]. split; [reflexivity|].
      rewrite !writes_app. cbn. now rewrite !app_nil_r.
    + left. eexists _, _. split; [reflexivity|]. split; [reflexivity|].
      split; [reflexivity|]. cbn [fs log]. split; [reflexivity|].
      rewrite !writes_app. cbn. now rewrite !app_nil_r.
  - right. eexists. split; [discriminate|]. split; [reflexivity|].
    cbn [fs log]. split; [reflexivity|].
    rewrite !writes_app. cbn. now rewrite !app_nil_r.
Qed.

Lemma update_plugin_json_cases (target : string) (info : plugin_info)
      (w : world) :
  (exists w', update_plugin_json target info w = (Return false, w') /\
              fs w' = fs w /\ writes (log w') = writes (log w)) \/
  (exists w' n n' data,
     update_plugin_json target info w = (Return true, w') /\
     project_root (fs w) !! target = Some n /\
     put_file manifest_path (JsonText data) n = inr n' /\
     fs w' = {| template_dir := template_dir (fs w);
                marketplace_file := marketplace_file (fs w);
                project_root := <[target := n']> (project_root (fs w)) |} /\
     writes (log w') = writes (log w) ++ [Wrote (PluginJson target)]).
Proof.
  assert (Hfail : forall msg,
    exists w',
      (Return false,
       {| fs := fs w; keyboard := keyboard w;
          log := (log w ++ [Print (nl +:+ "📝 Updating plugin.json")])
                 ++ [Print msg] |}) = (Return false, w') /\
      fs w' = fs w /\ writes (log w') = writes (log w)).
  { intros msg. eexists. split; [reflexivity|]. cbn [fs log].
    split; [reflexivity|]. rewrite !writes_app. cbn. now rewrite !app_nil_r. }
  unfold update_plugin_json, bind, try_except, bind, print, emit, load_json,
    dump_json, lift, find, store, ret.
  cbn [fs keyboard log].
  destruct (project_root (fs w) !! target) as [n|] eqn:Hn;
    [|left; apply Hfail].
  destruct (node_at manifest_path n) as [c|[[v|raw]|es]] eqn:Hread;
    try (left; apply Hfail).
  destruct v; try (left; apply Hfail).
  cbn [setitem]. unfold setitem_nested. cbn [getitem].
  destruct (dict_get "author" _) as [held|] eqn:Ha; [|left; apply Hfail].
  destruct held; try (left; apply Hfail).
  cbn [setitem]. cbn [fs keyboard log]. rewrite Hn.
  destruct (put_file manifest_path _ n) as [c|n'] eqn:Hput.
  - left. apply Hfail.
  - right. eexists _, n, n', _. split; [reflexivity|].
    split; [reflexivity|]. split; [exact Hput|]. cbn [fs log].
    split; [reflexivity|]. rewrite !writes_app. cbn. now rewrite !app_nil_r.
Qed.

Ltac unchanged Hq :=
  left; eexists _, _; split; [reflexivity|]; cbn [fs log];
  split; [reflexivity|]; rewrite ?writes_app, ?Hq; cbn;
  now rewrite ?app_nil_r.

Lemma register_to_marketplace_cases (info : plugin_info) (w : world) :
  (exists o w', register_to_marketplace info w = (o, w') /\
                fs w' = fs w /\ writes (log w') = writes (log w)) \/
  (exists w' registry items registry',
     register_to_marketplace info w = (Return true, w') /\
     marketplace_file (fs w) = Some (File (JsonText (JObj registry))) /\
     plugins_of registry = JArr items /\
     ~ Exists (named (name info)) items /\
     plugins_of registry' = JArr (items ++ [new_plugin_entry info]) /\
     (forall k, k <> "plugins" -> dict_get k registry' = dict_get k registry) /\
     fs w' = {| template_dir := template_dir (fs w);
                marketplace_file := Some (File (JsonText (JObj registry')));
                project_root := project_root (fs w) |} /\
     writes (log w') = writes (log w) ++ [Wrote Marketplace]).
Proof.
  pose proof (rounds_writes
                "Register this plugin to marketplace.json? (y/n): "
                (check_yes_no (fs w)) (keyboard w)) as Hq.
  unfold register_to_marketplace, bind, print, emit, while_input.
  cbn [fs keyboard log].
  destruct (rounds _ (check_yes_no (fs w)) (keyboard w))
    as [[evs rest] [choice|r]]; cbn [fst] in Hq; [|unchanged Hq].
  destruct (String.eqb choice "n"); [unchanged Hq|].
  unfold try_except, bind, load_json, dump_json, find, store, lift.
  cbn [fs keyboard log].
  destruct (marketplace_file (fs w)) as [[[v|raw]|es]|] eqn:Hm;
    try (unchanged Hq).
  destruct v; try (unchanged Hq).
  cbn [get_method]. fold (plugins_of fields).
  destruct (plugins_of fields) as [ | | | | |items|d] eqn:Hp;
    try (unchanged Hq).
  - (* a string: its characters are not records *)
    cbn [iterate].
    destruct (names_of (chars s)) as [names|r] eqn:Hn.
    + destruct (str_in (name info) names); [unchanged Hq|].
      unfold dict_has. unfold plugins_of in Hp.
      destruct (dict_get "plugins" fields) as [x|] eqn:E; [|discriminate].
      subst x. cbn [negb]. unfold append_at. cbn [getitem]. rewrite E.
      unchanged Hq.
    + destruct (names_of_raise _ _ Hn) as [e ->]. unchanged Hq.
  - (* the expected case: a list *)
    cbn [iterate].
    destruct (names_of items) as [names|r] eqn:Hn.
    + destruct (str_in (name info) names) eqn:Hin; [unchanged Hq|].
      assert (Hnew : ~ Exists (named (name info)) items).
      { intros Hex. apply (str_in_names (name info) items names Hn) in Hex.
        congruence. }
      unfold dict_has. unfold plugins_of in Hp.
      destruct (dict_get "plugins" fields) as [x|] eqn:E; cbn [negb].
      * subst x. unfold append_at. cbn [getitem]. rewrite E. cbn [setitem].
        cbn [fs keyboard log]. rewrite Hm. unfold print, emit, ret.
        cbn [fs keyboard log].
        right.
        eexists _, fields, items,
          (dict_set "plugins" (JArr (items ++ [new_plugin_entry info])) fields).
        split; [reflexivity|].
        split; [reflexivity|].
        split; [unfold plugins_of; now rewrite E|].
        split; [exact Hnew|].
        split; [unfold plugins_of; now rewrite dict_get_set_same|].
        split; [intros k Hk; apply dict_get_set_other; congruence|].
        cbn [fs log]. split; [reflexivity|].
        rewrite !writes_app, Hq. cbn. now rewrite !app_nil_r.
      * inversion Hp; subst items. cbn [setitem].
        unfold append_at. cbn [getitem]. rewrite dict_get_set_same.
        cbn [setitem]. cbn [fs keyboard log]. rewrite Hm.
        unfold print, emit, ret. cbn [fs keyboard log].
        right.
        eexists _, fields, [],
          (dict_set "plugins" (JArr ([] ++ [new_plugin_entry info]))
             (dict_set "plugins" (JArr []) fields)).
        split; [reflexivity|].
        split; [reflexivity|].
        split; [unfold plugins_of; now rewrite E|].
        split; [exact Hnew|].
        split; [unfold plugins_of; now rewrite dict_get_set_same|].
        split; [intros k Hk; rewrite !dict_get_set_other by congruence;
                reflexivity|].
        cbn [fs log]. split; [reflexivity|].
        rewrite !writes_app, Hq. cbn. now rewrite !app_nil_r.
    + destruct (names_of_raise _ _ Hn) as [e ->]. unchanged Hq.
  - (* a mapping: its keys are not records *)
    cbn [iterate].
    destruct (names_of (map (fun kv => JStr (fst kv)) d)) as [names|r] eqn:Hn.
    + destruct (str_in (name info) names); [unchanged Hq|].
      unfold dict_has. unfold plugins_of in Hp.
      destruct (dict_get "plugins" fields) as [x|] eqn:E; [|discriminate].
      subst x. cbn [negb]. unfold append_at. cbn [getitem]. rewrite E.
      unchanged Hq.
    + destruct (names_of_raise _ _ Hn) as [e ->]. unchanged Hq.
Qed.

(** ** The copy of the template *)

(** X11: [create_plugin_directory] never overwrites: when something
    already exists at the destination root under the plugin's name, it
    returns [None] and the file system is what it was. *)
Theorem create_never_overwrites
        (info : plugin_info) (w : world) (existing : node) :
  project_root (fs w) !! name info = Some existing ->
  exists w',
    create_plugin_directory info w = (Return None, w') /\
    fs w' = fs w /\ writes (log w') = writes (log w).
Proof.
  intros Hex.
  destruct (create_plugin_directory_cases info w)
    as [(tree & w' & _ & Hfree & _) | (w' & _ & Hc & Hf & Hw)].
  - congruence.
  - eauto.
Qed.

Lemma create_never_overwrites_witness :
  exists w',
    create_plugin_directory (Info "csharp-plugin" "d" "a" "1.0.0")
      (session sample_fs [])
    = (Return None, w') /\
    fs w' = sample_fs /\ writes (log w') = [].
Proof.
  apply (create_never_overwrites (Info "csharp-plugin" "d" "a" "1.0.0")
           (session sample_fs []) (Dir [])).
  reflexivity.
Defined.

(** X12: [create_plugin_directory] returns a target only after a copy:
    the target is the plugin's name at the destination root, the template
    was a directory, nothing existed under that name before the call, and
    afterwards the name holds the tree the template had. *)
Theorem create_copies_the_template
        (info : plugin_info) (w w' : world) (target : string) :
  create_plugin_directory info w = (Return (Some target), w') ->
  target = name info /\
  exists tree,
    template_dir (fs w) = Some (Dir tree) /\
    project_root (fs w) !! name info = None /\
    project_root (fs w') !! name info = Some (Dir tree).
Proof.
  intros H.
  destruct (create_plugin_directory_cases info w)
    as [(tree & w1 & Ht & Hfree & Hc & Hf & _) | (w1 & _ & Hc & _)];
    rewrite H in Hc; inversion Hc; subst.
  split; [reflexivity|]. exists tree. split; [exact Ht|].
  split; [exact Hfree|]. rewrite Hf. apply lookup_insert_eq.
Qed.

Lemma create_copies_the_template_witness :
  let info := Info "my-plugin" "d" "a" "1.0.0" in
  let r := create_plugin_directory info (session sample_fs []) in
  exists tree,
    template_dir sample_fs = Some (Dir tree) /\
    project_root sample_fs !! "my-plugin" = None /\
    project_root (fs (snd r)) !! "my-plugin" = Some (Dir tree).
Proof.
  intros info r.
  destruct (create_copies_the_template info (session sample_fs []) (snd r)
              "my-plugin") as (_ & H).
  - vm_compute. reflexivity.
  - exact H.
Defined.

(** ** The manifest *)

Lemma entry_get_set_other (k k' : string) (n : node)
      (es : list (string * node)) :
  k <> k' -> entry_get k' (entry_set k n es) = entry_get k' es.
Proof.
  intros Hne. induction es as [|[k0 n0] es IH]; cbn.
  - destruct (String.eqb_spec k' k); [congruence | reflexivity].
  - destruct (String.eqb_spec k k0) as [->|]; cbn.
    + destruct (String.eqb_spec k' k0); [congruence | reflexivity].
    + destruct (String.eqb k' k0); auto.
Qed.

(** Writing one file leaves every path that does not lead to it as it was. *)
Lemma put_file_frame (p : list string) (c : content) (n n' : node) :
  put_file p c n = inr n' ->
  forall q, is_prefix q p = false -> node_at q n' = node_at q n.
Proof.
  revert n n'. induction p as [|a p IH]; intros n n' Hput q Hq.
  - destruct q as [|x q]; [discriminate|].
    cbn in Hput. destruct n; [|discriminate]. inversion Hput; subst.
    reflexivity.
  - destruct q as [|x q]; [discriminate|].
    cbn in Hput. destruct n as [|es]; [discriminate|].
    destruct (entry_get a es) as [child|] eqn:E; [|discriminate].
    destruct (put_file p c child) as [e|child'] eqn:Hc; [discriminate|].
    inversion Hput; subst. cbn [node_at].
    cbn [is_prefix] in Hq.
    destruct (String.eqb_spec x a) as [->|Hne].
    + rewrite entry_get_set_same, E. cbn in Hq. now apply (IH child).
    + rewrite entry_get_set_other by congruence. reflexivity.
Qed.


(** [update_plugin_json] returns [True] only for a manifest it could read
    and assign to. *)
Lemma update_needs_manifest (target : string) (info : plugin_info)
      (w w' : world) :
  update_plugin_json target info w = (Return true, w') ->
  manifest_updatable (fs w) target.
Proof.
  unfold update_plugin_json, bind, try_except, bind, print, emit, load_json,
    dump_json, lift, find, store, ret.
  cbn [fs keyboard log].
  destruct (project_root (fs w) !! target) as [n|] eqn:Hn; [|discriminate].
  destruct (node_at manifest_path n) as [c|[[v|raw]|es]] eqn:Hread;
    try discriminate.
  destruct v; try discriminate.
  cbn [setitem]. unfold setitem_nested. cbn [getitem].
  destruct (dict_get "author" _) as [held|] eqn:Ha; [|discriminate].
  destruct held; try discriminate.
  intros _. exists n, fields, fields0. split; [exact Hn|].
  split; [exact Hread|].
  rewrite !dict_get_set_other in Ha by discriminate. exact Ha.
Qed.

Lemma update_without_manifest (target : string) (info : plugin_info)
      (w : world) :
  ~ manifest_updatable (fs w) target ->
  exists w',
    update_plugin_json target info w = (Return false, w') /\
    fs w' = fs w /\ writes (log w') = writes (log w).
Proof.
  intros Hbad.
  destruct (update_plugin_json_cases target info w)
    as [(w1 & H1 & Hf & Hw) | (w1 & n & n' & data & H1 & _)].
  - eauto.
  - destruct Hbad. eapply update_needs_manifest; eauto.
Qed.

(** X13: a manifest that cannot be updated is not written: when the file
    below the target is missing, is not JSON, is not a mapping, or has no
    mapping under [author], [update_plugin_json] returns [False] and the
    file system, the copied directory included, is what it was. *)
Theorem unreadable_manifest_is_left_alone
        (target : string) (info : plugin_info) (w : world) :
  ~ manifest_updatable (fs w) target ->
  exists w',
    update_plugin_json target info w = (Return false, w') /\
    fs w' = fs w /\
    project_root (fs w') !! target = project_root (fs w) !! target /\
    writes (log w') = writes (log w).
Proof.
  intros Hbad.
  destruct (update_without_manifest target info w Hbad) as (w' & Hu & Hf & Hw).
  exists w'. split; [exact Hu|]. split; [exact Hf|].
  split; [now rewrite Hf | exact Hw].
Qed.

Lemma unreadable_manifest_is_left_alone_witness :
  let f := {| template_dir := None; marketplace_file := None;
              project_root :=
                {[ "p" := Dir [(".claude-plugin",
                                Dir [("plugin.json",
                                      File (JsonText
                                              (JObj [("name", JStr "t")])))])] ]}
           |} in
  exists w',
    update_plugin_json "p" (Info "p" "d" "a" "1.0.0") (session f [])
    = (Return false, w') /\
    fs w' = f /\
    project_root (fs w') !! "p" = project_root f !! "p" /\
    writes (log w') = [].
Proof.
  intros f.
  apply (unreadable_manifest_is_left_alone "p" (Info "p" "d" "a" "1.0.0")
           (session f [])).
  intros (n & manifest & authored & Hn & Hread & Ha).
  vm_compute in Hn. inversion Hn; subst n.
  vm_compute in Hread. inversion Hread; subst manifest.
  vm_compute in Ha. discriminate.
Defined.



(** X15: inside its target directory [update_plugin_json] changes the
    manifest at most: whatever the call returns, every path of the target
    that does not lead to [.claude-plugin/plugin.json] reads after the call
    as it did before. *)
Theorem update_touches_only_the_manifest
        (target : string) (info : plugin_info) (w : world) (n n' : node)
        (q : list string) :
  project_root (fs w) !! target = Some n ->
  project_root (fs (snd (update_plugin_json target info w))) !! target
  = Some n' ->
  is_prefix q manifest_path = false ->
  node_at q n' = node_at q n.
Proof.
  intros H1 H2 Hq.
  destruct (update_plugin_json_cases target info w)
    as [(w1 & Hu & Hf & _) | (w1 & n0 & n0' & data & Hu & Hn & Hput & Hf & _)];
    rewrite Hu in H2; cbn [snd] in H2; rewrite Hf in H2.
  - congruence.
  - cbn [project_root] in H2. rewrite lookup_insert_eq in H2.
    assert (n = n0) by congruence. assert (n' = n0') by congruence.
    subst. eapply put_file_frame; eauto.
Qed.

Lemma update_touches_only_the_manifest_witness :
  let w := session {| template_dir := None; marketplace_file := None;
                      project_root := {[ "p" := sample_template ]} |} [] in
  let w' := snd (update_plugin_json "p" (Info "p" "d" "a" "1.0.0") w) in
  exists n',
    project_root (fs w') !! "p" = Some n' /\
    n' <> sample_template /\
    node_at ["README.md"] n' = inr (File (OtherText "# Plugin template")).
Proof.
  intros w w'. eexists. split; [vm_compute; reflexivity|].
  split; [discriminate|].
  etransitivity.
  - apply (update_touches_only_the_manifest "p" (Info "p" "d" "a" "1.0.0") w
             sample_template);
      [reflexivity | vm_compute; reflexivity | reflexivity].
  - reflexivity.
Defined.

(** ** The registry, continued *)

(** X16: declining registration is a success without effect: when the
    registry prompt is left with ["n"], [register_to_marketplace] returns
    [True] and the file system is what it was. *)
Theorem declined_registration_is_noop
        (info : plugin_info) (w : world)
        (evs : list event) (rest : list string) :
  rounds "Register this plugin to marketplace.json? (y/n): "
         (check_yes_no (fs w)) (keyboard w) = (evs, rest, Return "n") ->
  exists w',
    register_to_marketplace info w = (Return true, w') /\
    fs w' = fs w /\ writes (log w') = writes (log w) /\ keyboard w' = rest.
Proof.
  intros Hr.
  pose proof (rounds_writes
                "Register this plugin to marketplace.json? (y/n): "
                (check_yes_no (fs w)) (keyboard w)) as Hq.
  rewrite Hr in Hq. cbn [fst] in Hq.
  unfold register_to_marketplace, bind, print, emit, while_input.
  cbn [fs keyboard log]. rewrite Hr.
  change (String.eqb "n" "n") with true. cbv iota.
  unfold ret. cbn [fs keyboard log].
  eexists. split; [reflexivity|]. cbn [fs log keyboard].
  split; [reflexivity|]. split; [|reflexivity].
  rewrite !writes_app, Hq. cbn. now rewrite !app_nil_r.
Qed.

Lemma declined_registration_is_noop_witness :
  exists w',
    register_to_marketplace (Info "my-plugin" "d" "a" "1.0.0")
      (session sample_fs ["no"; " N "; "later"])
    = (Return true, w') /\
    fs w' = sample_fs /\ writes (log w') = [] /\ keyboard w' = ["later"].
Proof.
  apply (declined_registration_is_noop (Info "my-plugin" "d" "a" "1.0.0")
           (session sample_fs ["no"; " N "; "later"])
           (fst (fst (rounds
                        "Register this plugin to marketplace.json? (y/n): "
                        (check_yes_no sample_fs) ["no"; " N "; "later"])))
           ["later"]).
  vm_compute. reflexivity.
Defined.

Lemma names_of_return_records (items names : list json) :
  names_of items = Return names -> Forall is_record items.
Proof.
  revert names. induction items as [|p items IH]; intros names; cbn.
  - constructor.
  - destruct (getitem p "name") as [v|r] eqn:Hp; [|discriminate].
    destruct (names_of items) as [ns|r]; [|discriminate].
    intros _. apply getitem_name in Hp. destruct Hp as (fields & -> & Hv).
    constructor; [exists fields, v; auto | eapply IH; eauto].
Qed.

(** The characters of a string, and the keys of a mapping, are strings:
    none of them is a record. *)
Lemma names_of_chars (s : string) (names : list json) :
  names_of (chars s) = Return names -> names = [].
Proof.
  destruct s; cbn; [intros H; now inversion H | discriminate].
Qed.

Lemma names_of_keys (d : dict) (names : list json) :
  names_of (map (fun kv => JStr (fst kv)) d) = Return names -> names = [].
Proof.
  destruct d; cbn; [intros H; now inversion H | discriminate].
Qed.

Ltac refused Hq :=
  eexists; split; [reflexivity|]; cbn [fs log];
  split; [reflexivity|]; rewrite ?writes_app, ?Hq; cbn;
  now rewrite ?app_nil_r.

(** X17: a registry that cannot be read is not written: when the registry
    file is not JSON, is not a mapping, or has under [plugins] anything but
    a list of records, answering yes makes [register_to_marketplace] return
    [False], and the registry file and the rest of the file system are what
    they were. *)
Theorem unreadable_registry_is_left_alone
        (info : plugin_info) (w : world)
        (evs : list event) (rest : list string) :
  ~ registry_readable (fs w) ->
  rounds "Register this plugin to marketplace.json? (y/n): "
         (check_yes_no (fs w)) (keyboard w) = (evs, rest, Return "y") ->
  exists w',
    register_to_marketplace info w = (Return false, w') /\
    fs w' = fs w /\ writes (log w') = writes (log w).
Proof.
  intros Hbad Hr.
  pose proof (rounds_writes
                "Register this plugin to marketplace.json? (y/n): "
                (check_yes_no (fs w)) (keyboard w)) as Hq.
  rewrite Hr in Hq. cbn [fst] in Hq.
  unfold register_to_marketplace, bind, print, emit, while_input.
  cbn [fs keyboard log]. rewrite Hr.
  change (String.eqb "y" "n") with false. cbv iota.
  unfold try_except, bind, load_json, dump_json, find, store, lift.
  cbn [fs keyboard log].
  destruct (marketplace_file (fs w)) as [[[v|raw]|es]|] eqn:Hm;
    try (refused Hq).
  destruct v; try (refused Hq).
  cbn [get_method]. fold (plugins_of fields).
  destruct (plugins_of fields) as [ | | | | |items|d] eqn:Hp;
    try (refused Hq).
  - cbn [iterate].
    destruct (names_of (chars s)) as [names|r] eqn:Hn.
    + rewrite (names_of_chars s names Hn). cbn [str_in existsb].
      unfold dict_has. unfold plugins_of in Hp.
      destruct (dict_get "plugins" fields) as [x|] eqn:E; [|discriminate].
      subst x. cbn [negb]. unfold append_at. cbn [getitem]. rewrite E.
      refused Hq.
    + destruct (names_of_raise _ _ Hn) as [e ->]. refused Hq.
  - cbn [iterate].
    destruct (names_of items) as [names|r] eqn:Hn.
    + destruct Hbad. exists fields, items. split; [exact Hm|].
      split; [exact Hp|]. eapply names_of_return_records; eauto.
    + destruct (names_of_raise _ _ Hn) as [e ->]. refused Hq.
  - cbn [iterate].
    destruct (names_of (map (fun kv => JStr (fst kv)) d)) as [names|r] eqn:Hn.
    + rewrite (names_of_keys d names Hn). cbn [str_in existsb].
      unfold dict_has. unfold plugins_of in Hp.
      destruct (dict_get "plugins" fields) as [x|] eqn:E; [|discriminate].
      subst x. cbn [negb]. unfold append_at. cbn [getitem]. rewrite E.
      refused Hq.
    + destruct (names_of_raise _ _ Hn) as [e ->]. refused Hq.
Qed.

Lemma unreadable_registry_is_left_alone_witness :
  let f := {| template_dir := Some sample_template;
              marketplace_file :=
                Some (File (JsonText (JObj [("plugins", JStr "none")])));
              project_root := ∅ |} in
  exists w',
    register_to_marketplace (Info "p" "d" "a" "1.0.0") (session f ["y"])
    = (Return false, w') /\
    fs w' = f /\ writes (log w') = [].
Proof.
  intros f.
  apply (unreadable_registry_is_left_alone (Info "p" "d" "a" "1.0.0")
           (session f ["y"])
           [Prompt "Register this plugin to marketplace.json? (y/n): "] []).
  - intros (registry & items & Hm & Hp & _).
    vm_compute in Hm. inversion Hm; subst registry.
    vm_compute in Hp. discriminate.
  - vm_compute. reflexivity.
Defined.

(** X18: whatever it returns or raises, [register_to_marketplace] touches
    neither the template nor the destination root; the only file it can
    change is the registry. *)
Theorem registration_touches_only_the_registry
        (info : plugin_info) (w : world) :
  only_registry (fs w) (fs (snd (register_to_marketplace info w))).
Proof.
  destruct (register_to_marketplace_cases info w)
    as [(o & w1 & -> & Hf & _) | (w1 & reg & items & reg' & -> & _ & _ & _
                                  & _ & _ & Hf & _)];
    cbn [snd]; rewrite Hf; split; reflexivity.
Qed.

(** X19: when [register_to_marketplace] returns [True] after writing the
    registry file, the file was a mapping whose [plugins] value (taken as
    the empty list when the key is missing) is a list with no record of
    that name, and the new document has the same list followed by the one
    new record, every other key keeping its value. *)
Theorem registration_appends_one_record
        (info : plugin_info) (w w' : world) :
  register_to_marketplace info w = (Return true, w') ->
  writes (log w') <> writes (log w) ->
  exists registry items registry',
    marketplace_file (fs w) = Some (File (JsonText (JObj registry))) /\
    plugins_of registry = JArr items /\
    ~ Exists (named (name info)) items /\
    marketplace_file (fs w') = Some (File (JsonText (JObj registry'))) /\
    plugins_of registry'
    = JArr (items ++ [JObj [ ("name", JStr (name info));
                             ("source", JStr ("./" +:+ name info));
                             ("description", JStr (description info)) ]]) /\
    (forall k, k <> "plugins" -> dict_get k registry' = dict_get k registry).
Proof.
  intros Hret Hwrote.
  destruct (register_to_marketplace_cases info w)
    as [(o & w1 & H1 & _ & Hw) | (w1 & reg & items & reg' & H1 & Hm & Hp
                                  & Hnew & Hp' & Hk & Hf & _)];
    rewrite Hret in H1; inversion H1; subst.
  - now destruct Hwrote.
  - exists reg, items, reg'. rewrite Hf. cbn [marketplace_file].
    repeat split; auto.
Qed.

Lemma registration_appends_one_record_witness :
  let w := session {| template_dir := None;
                      marketplace_file :=
                        Some (File (JsonText (JObj [("owner", JStr "me")])));
                      project_root := ∅ |} ["y"] in
  let w' := snd (register_to_marketplace (Info "my-plugin" "d" "a" "1.0.0") w) in
  exists registry',
    marketplace_file (fs w') = Some (File (JsonText (JObj registry'))) /\
    dict_get "owner" registry' = Some (JStr "me").
Proof.
  intros w w'.
  destruct (registration_appends_one_record
              (Info "my-plugin" "d" "a" "1.0.0") w w')
    as (reg & items & reg' & Hm & _ & _ & Hm' & _ & Hk).
  - vm_compute. reflexivity.
  - vm_compute. discriminate.
  - exists reg'. split; [exact Hm'|].
    rewrite (Hk "owner") by discriminate.
    cbn in Hm. inversion Hm; subst. reflexivity.
Defined.

Lemma new_plugin_entry_named (info : plugin_info) :
  named (name info) (new_plugin_entry info).
Proof. eexists. split; [reflexivity|]. reflexivity. Qed.

(** X20: registering is idempotent: once [register_to_marketplace] has
    written the record of a plugin, a later call for the same plugin, on
    that file system and whatever the answers, changes nothing. *)
Theorem registering_again_changes_nothing
        (info : plugin_info) (w w2 : world) :
  writes (log (snd (register_to_marketplace info w))) <> writes (log w) ->
  fs w2 = fs (snd (register_to_marketplace info w)) ->
  fs (snd (register_to_marketplace info w2)) = fs w2 /\
  writes (log (snd (register_to_marketplace info w2))) = writes (log w2).
Proof.
  intros Hwrote Hfs.
  destruct (register_to_marketplace_cases info w)
    as [(o & w1 & H1 & _ & Hw) | (w1 & reg & items & reg' & H1 & _ & _
                                  & _ & Hp' & _ & Hf & _)];
    rewrite H1 in Hwrote, Hfs; cbn [snd] in Hwrote, Hfs.
  - now destruct Hwrote.
  - destruct (register_to_marketplace_cases info w2)
      as [(o & w3 & -> & Hf3 & Hw3) | (w3 & reg2 & items2 & reg2' & _ & Hm2
                                       & Hp2 & Hnew2 & _)];
      cbn [snd]; [auto|].
    exfalso. rewrite Hfs, Hf in Hm2. cbn [marketplace_file] in Hm2.
    inversion Hm2; subst reg2. rewrite Hp' in Hp2. inversion Hp2; subst items2.
    apply Hnew2. apply Exists_app. right. constructor.
    apply new_plugin_entry_named.
Qed.

Lemma registering_again_changes_nothing_witness :
  let info := Info "my-plugin" "Test plugin" "Alice" "1.0.0" in
  let w1 := snd (register_to_marketplace info (session sample_fs ["y"])) in
  let w2 := session (fs w1) ["y"] in
  fs (snd (register_to_marketplace info w2)) = fs w2 /\
  writes (log (snd (register_to_marketplace info w2))) = writes (log w2).
Proof.
  intros info w1 w2.
  apply (registering_again_changes_nothing info (session sample_fs ["y"]) w2).
  - vm_compute. discriminate.
  - reflexivity.
Defined.

(** ** Whole runs *)

Lemma registration_frame (info : plugin_info) (w : world) :
  project_root (fs (snd (register_to_marketplace info w)))
  = project_root (fs w).
Proof.
  destruct (register_to_marketplace_cases info w)
    as [(o & w1 & -> & Hf & _) | (w1 & reg & items & reg' & -> & _ & _ & _
                                  & _ & _ & Hf & _)];
    cbn [snd]; now rewrite Hf.
Qed.

Lemma preserves_print_success_message (info : plugin_info) :
  preserves (print_success_message info).
Proof. unfold print_success_message. frame. Qed.

(** What a run can have done to the file system when it ends, whichever
    way it ends. *)
Lemma run_effects (w : world) :
  let o := fst (run w) in
  let w' := snd (run w) in
  (fs w' = fs w /\ writes (log w') = writes (log w)) \/
  (exists info tree,
     template_dir (fs w) = Some (Dir tree) /\
     project_root (fs w) !! name info = None /\
     ((o = Return 1 /\
       fs w' = {| template_dir := template_dir (fs w);
                  marketplace_file := marketplace_file (fs w);
                  project_root :=
                    <[name info := Dir tree]> (project_root (fs w)) |} /\
       writes (log w') = writes (log w) ++ [CopiedTree (name info)]) \/
      (exists data copy,
         put_file manifest_path (JsonText data) (Dir tree) = inr copy /\
         ((o <> Return 1 /\
           fs w' = {| template_dir := template_dir (fs w);
                      marketplace_file := marketplace_file (fs w);
                      project_root :=
                        <[name info := copy]> (project_root (fs w)) |} /\
           writes (log w')
           = writes (log w) ++ [CopiedTree (name info);
                                Wrote (PluginJson (name info))]) \/
          (exists registry',
             o = Return 0 /\
             fs w' = {| template_dir := template_dir (fs w);
                        marketplace_file :=
                          Some (File (JsonText (JObj registry')));
                        project_root :=
                          <[name info := copy]> (project_root (fs w)) |} /\
             writes (log w')
             = writes (log w) ++ [CopiedTree (name info);
                                  Wrote (PluginJson (name info));
                                  Wrote Marketplace]))))).
Proof.
  cbv zeta. rewrite run_eq.
  pose proof (preserves_validate_environment w) as [Hf0 Hw0].
  destruct (validate_environment w) as [[valid|r] w0]; cbn [snd] in Hf0, Hw0;
    [|left; cbn [snd]; auto].
  destruct valid; cbn [negb]; [|left; cbn [snd]; auto].
  pose proof (preserves_gather w0) as [Hf1 Hw1].
  destruct (gather w0) as [[[info c]|r] wc]; cbn [snd] in Hf1, Hw1;
    [|left; cbn [snd]; split; congruence].
  destruct (String.eqb c "n").
  { left. cbn [snd].
    destruct (preserves_print (nl +:+ "❌ Plugin creation cancelled") wc).
    split; congruence. }
  destruct (create_plugin_directory_cases info wc)
    as [(tree & wd & Ht & Hfree & -> & Hfd & Hwd) | (wd & _ & -> & Hfd & Hwd)];
    [|left; cbn [snd]; split; congruence].
  rewrite Hf1, Hf0 in Ht, Hfree, Hfd. rewrite Hw1, Hw0 in Hwd.
  right. exists info, tree. split; [exact Ht|]. split; [exact Hfree|].
  destruct (update_plugin_json_cases (name info) info wd)
    as [(wu & -> & Hfu & Hwu) | (wu & n & copy & data & -> & Hn & Hput & Hfu
                                 & Hwu)]; cbn [negb].
  { left. cbn [fst snd]. split; [reflexivity|].
    match goal with
    | |- context [print ?line wu] =>
        destruct (preserves_print line wu) as [Hfp Hwp]
    end.
    split; [rewrite Hfp, Hfu; exact Hfd | rewrite Hwp, Hwu; exact Hwd]. }
  right.
  rewrite Hfd in Hn, Hfu. cbn [project_root template_dir marketplace_file]
    in Hn, Hfu.
  rewrite lookup_insert_eq in Hn. inversion Hn; subst n.
  rewrite insert_insert_eq in Hfu. rewrite Hwd in Hwu.
  exists data, copy. split; [exact Hput|].
  destruct (register_to_marketplace_cases info wu)
    as [(o2 & wr & -> & Hfr & Hwr) | (wr & reg & items & reg' & -> & _ & _ & _
                                      & _ & _ & Hfr & Hwr)].
  - left. destruct o2 as [b|r]; cbn [fst snd].
    + destruct (preserves_print_success_message info wr) as [Hfp Hwp].
      split; [discriminate|].
      split; [rewrite Hfp, Hfr; exact Hfu|].
      rewrite Hwp, Hwr, Hwu. now rewrite <- app_assoc.
    + split; [discriminate|].
      split; [rewrite Hfr; exact Hfu|].
      rewrite Hwr, Hwu. now rewrite <- app_assoc.
  - right. exists reg'. cbn [fst snd].
    destruct (preserves_print_success_message info wr) as [Hfp Hwp].
    split; [reflexivity|].
    split; [rewrite Hfp, Hfr, Hfu; reflexivity|].
    rewrite Hwp, Hwr, Hwu. now rewrite <- !app_assoc.
Qed.

(** X22: the writes of a run come in one order: first the copy of the
    template, then the manifest of that copy, then the registry.  The
    manifest is never written without the copy, nor the registry without
    both. *)
Theorem run_writes_in_order (w : world) :
  exists target,
    let done := [CopiedTree target; Wrote (PluginJson target);
                 Wrote Marketplace] in
    exists k, (k <= 3)%nat /\
      writes (log (snd (run w))) = writes (log w) ++ firstn k done.
Proof.
  destruct (run_effects w)
    as [[_ Hw] | (info & tree & _ & _ &
                  [(_ & _ & Hw) |
                   (data & copy & _ &
                    [(_ & _ & Hw) | (reg' & _ & _ & Hw)])])].
  - exists "". exists 0%nat. split; [lia|]. cbn. now rewrite app_nil_r.
  - exists (name info), 1%nat. split; [lia | exact Hw].
  - exists (name info), 2%nat. split; [lia | exact Hw].
  - exists (name info), 3%nat. split; [lia | exact Hw].
Qed.

(** X23: the exit status of the script is the value [run] returned, handed
    to [sys.exit], and that value is 0 or 1; an exception [run] lets out,
    such as the [EOFError] of a prompt that finds standard input exhausted,
    is not caught by [main] either and ends the script with status 1. *)
Theorem script_exit_status (w : world) :
  (forall s w', run w = (Return s, w') ->
                (s = 0 \/ s = 1) /\
                main w = (Raise (SystemExit s), w') /\
                exit_status (fst (main w)) = s) /\
  (forall e w', run w = (Raise (Exception e), w') ->
                main w = (Raise (Exception e), w') /\
                exit_status (fst (main w)) = 1).
Proof.
  split.
  - intros s w' H. split; [exact (run_status_range w w' s H)|].
    unfold main, bind, sys_exit. rewrite H. split; reflexivity.
  - intros e w' H. unfold main, bind, sys_exit. rewrite H.
    split; reflexivity.
Qed.

Lemma script_exit_status_witness :
  let w := session sample_fs ["my-plugin"; "Test plugin"; "Alice"; ""; "n"] in
  main w = (Raise (SystemExit 0), snd (run w)) /\
  exit_status (fst (main w)) = 0.
Proof.
  intros w.
  destruct (proj1 (script_exit_status w) 0 (snd (run w))) as (_ & H1 & H2).
  - vm_compute. reflexivity.
  - split; [exact H1 | exact H2].
Defined.

(** Standard input ending at the first prompt: the traceback gives 1. *)
Example script_exit_status_at_end_of_input :
  exit_status (fst (main (session sample_fs []))) = 1.
Proof. vm_compute. reflexivity. Qed.

(** What follows the copy of the template. *)
Lemma after_copy (w wd : world) (info : plugin_info) (target : string) :
  copied w info target wd ->
  target = name info /\
  exists tree n,
    template_dir (fs w) = Some (Dir tree) /\
    project_root (fs w) !! name info = None /\
    project_root (fs wd) !! name info = Some (Dir tree) /\
    marketplace_file (fs wd) = marketplace_file (fs w) /\
    project_root (fs (snd (run w))) !! name info = Some n /\
    (fst (update_plugin_json target info wd) = Return false ->
     fst (run w) = Return 1 /\ n = Dir tree /\
     marketplace_file (fs (snd (run w))) = marketplace_file (fs w)).
Proof.
  intros (wc & (w0 & Hv & Hg) & Hc).
  pose proof (preserves_validate_environment w) as [Hf0 _].
  pose proof (preserves_gather w0) as [Hf1 _].
  rewrite Hv in Hf0. rewrite Hg in Hf1. cbn [snd] in Hf0, Hf1.
  destruct (create_plugin_directory_cases info wc)
    as [(tree & wd' & Ht & Hfree & Hc' & Hfd & _) | (wd' & _ & Hc' & _)];
    rewrite Hc in Hc'; inversion Hc'; subst; clear Hc'.
  split; [reflexivity|].
  rewrite Hf1, Hf0 in Ht, Hfree, Hfd.
  rewrite run_eq, Hv, Hg. cbn [negb].
  change (String.eqb "y" "n") with false. cbv iota. rewrite Hc.
  destruct (update_plugin_json_cases (name info) info wd')
    as [(wu & Hu & Hfu & _) | (wu & n0 & copy & data & Hu & _ & _ & Hfu & _)];
    rewrite Hu; cbn [negb fst snd].
  - exists tree, (Dir tree).
    match goal with
    | |- context [print ?line wu] =>
        destruct (preserves_print line wu) as [Hfp _]
    end.
    split; [exact Ht|]. split; [exact Hfree|].
    split; [rewrite Hfd; apply lookup_insert_eq|].
    split; [now rewrite Hfd|].
    split; [rewrite Hfp, Hfu, Hfd; apply lookup_insert_eq|].
    intros _. split; [reflexivity|]. split; [reflexivity|].
    now rewrite Hfp, Hfu, Hfd.
  - exists tree, copy.
    split; [exact Ht|]. split; [exact Hfree|].
    split; [rewrite Hfd; apply lookup_insert_eq|].
    split; [now rewrite Hfd|].
    split; [|discriminate].
    pose proof (registration_frame info wu) as Hreg.
    destruct (register_to_marketplace info wu) as [[b|r] wr];
      cbn [snd] in Hreg |- *.
    + change (fs (snd (print_success_message info wr))) with (fs wr).
      rewrite Hreg, Hfu. apply lookup_insert_eq.
    + rewrite Hreg, Hfu. apply lookup_insert_eq.
Qed.

(** X24: no clean-up when the manifest cannot be updated: when the copy
    succeeded and the manifest of the copy cannot be read as a mapping with
    an [author] mapping, [run] returns 1 and leaves the new directory in
    place, holding the tree the template had, with the registry
    untouched. *)
Theorem failed_manifest_keeps_the_copy
        (w wd : world) (info : plugin_info) (target : string) :
  copied w info target wd ->
  ~ manifest_updatable (fs wd) target ->
  exists tree,
    template_dir (fs w) = Some (Dir tree) /\
    fst (run w) = Return 1 /\
    project_root (fs (snd (run w))) !! name info = Some (Dir tree) /\
    marketplace_file (fs (snd (run w))) = marketplace_file (fs w).
Proof.
  intros Hc Hbad.
  destruct (update_without_manifest target info wd Hbad) as (wu & Hu & _).
  destruct (after_copy w wd info target Hc)
    as (_ & tree & n & Ht & _ & _ & _ & Hn & Hfail).
  destruct Hfail as (Hrun & -> & Hm); [now rewrite Hu|].
  exists tree. auto.
Qed.

Lemma failed_manifest_keeps_the_copy_witness :
  let w := session broken_fs ["x"; "d"; "a"; ""; "y"] in
  exists tree,
    template_dir (fs w) = Some (Dir tree) /\
    fst (run w) = Return 1 /\
    project_root (fs (snd (run w))) !! "x" = Some (Dir tree) /\
    marketplace_file (fs (snd (run w))) = marketplace_file (fs w).
Proof.
  intros w.
  apply (failed_manifest_keeps_the_copy w
           (snd (create_plugin_directory (Info "x" "d" "a" "1.0.0")
                   (snd (gather w))))
           (Info "x" "d" "a" "1.0.0") "x").
  - exists (snd (gather w)). split.
    + exists w. split; vm_compute; reflexivity.
    + vm_compute. reflexivity.
  - intros (n & manifest & authored & Hn & Hread & _).
    vm_compute in Hn. inversion Hn; subst n.
    vm_compute in Hread. discriminate.
Defined.

(** X25: once a run has copied the template under a name, that name is
    taken: in the file system the run leaves behind, the name loop turns
    down every line that strips to it, so a second run with the same name
    asks again instead of copying over the directory. *)
Theorem created_name_is_taken_afterwards
        (w wd : world) (info : plugin_info) (target line : string) :
  copied w info target wd ->
  strip line = name info ->
  turned_down (fs (snd (run w))) line.
Proof.
  intros Hc Hline.
  destruct (after_copy w wd info target Hc)
    as (_ & tree & n & _ & _ & _ & _ & Hn & _).
  apply check_name_again. right. right.
  unfold exists_in_root. now rewrite Hline, Hn.
Qed.

Lemma created_name_is_taken_afterwards_witness :
  let w := session sample_fs ["my-plugin"; "Test plugin"; "Alice"; ""; "y"; "n"] in
  turned_down (fs (snd (run w))) "  my-plugin ".
Proof.
  intros w.
  apply (created_name_is_taken_afterwards w
           (snd (create_plugin_directory
                   (Info "my-plugin" "Test plugin" "Alice" "1.0.0")
                   (snd (gather w))))
           (Info "my-plugin" "Test plugin" "Alice" "1.0.0") "my-plugin").
  - exists (snd (gather w)). split.
    + exists w. split; vm_compute; reflexivity.
    + vm_compute. reflexivity.
  - reflexivity.
Defined.

End ScaffoldSpec.
